(** * AIOS runtime core: backend resolution and component lifecycle

    A shallow embedding of [aios/llm_core/adapter.py] (the constructor of
    [LLMAdapter], which decides which backend class serves a model name)
    and of [runtime/kernel.py] (the HTTP handlers that set up, query and
    clean up the process-wide table [active_components]), followed by the
    properties of the specification that concern them. *)

From Stdlib Require Import ZArith Ascii String.
From stdpp Require Import base option list strings gmap fin_maps.

Local Open Scope string_scope.
Set Warnings "-clear-no-such-hyp".

(** ** Python values, exceptions and results *)

Module Py.

(** The JSON-like Python values that cross the handlers' interface. *)
#[local] Unset Elimination Schemes.
Inductive pyobj :=
| PyNone
| PyBool (b : bool)
| PyInt (z : Z)
| PyStr (s : string)
| PyList (l : list pyobj)
| PyDict (kv : list (string * pyobj)).
#[local] Set Elimination Schemes.

(** An instance of [Exception]: [type(e).__name__], [str(e)], the text
    [traceback.format_exc()] gives while it is handled, and
    [getattr(e, 'debug_logs', None)]. *)
Record exc := {
  exc_type : string;
  exc_str : string;
  exc_traceback : string;
  exc_debug_logs : pyobj
}.

(** The outcome of a call: a value or a raised exception. *)
Inductive result (A : Type) :=
| Return (a : A)
| Raise (e : exc).
Arguments Return {A} a.
Arguments Raise {A} e.

#[global] Instance result_ret : MRet result := @Return.
#[global] Instance result_bind : MBind result :=
  fun A B f m => match m with Return a => f a | Raise e => Raise e end.

(** [d[k]] on a missing key. *)
Definition KeyError (k : string) : exc :=
  {| exc_type := "KeyError"; exc_str := "'" ++ k ++ "'";
     exc_traceback := "Traceback (most recent call last): KeyError";
     exc_debug_logs := PyNone |}.

(** [x.attr] on an object of class [cls] that has no such attribute. *)
Definition AttributeError (cls attr : string) : exc :=
  {| exc_type := "AttributeError";
     exc_str := "'" ++ cls ++ "' object has no attribute '" ++ attr ++ "'";
     exc_traceback := "Traceback (most recent call last): AttributeError";
     exc_debug_logs := PyNone |}.

(** [x[k]] on an object of class [cls] that is not subscriptable. *)
Definition TypeError (cls : string) : exc :=
  {| exc_type := "TypeError";
     exc_str := "'" ++ cls ++ "' object is not subscriptable";
     exc_traceback := "Traceback (most recent call last): TypeError";
     exc_debug_logs := PyNone |}.

(** Truth value of an [Optional[str]]: [None] and the empty string are falsy. *)
Definition str_truthy (s : option string) : bool :=
  match s with
  | Some (String _ _) => true
  | _ => false
  end.

(** A Python [str] is kept as the bytes of its UTF-8 encoding, so that
    [s.startswith(p)] is the prefix test on the bytes. *)
Definition startswith (s p : string) : bool := String.prefix p s.

(** What [str.lower()] does to a string of ASCII characters.  On other
    strings the builtin follows the Unicode tables; the embedding of the
    adapter takes it as a parameter, and this function is the instance
    used in the examples, whose names are ASCII. *)
Definition ascii_lower (c : ascii) : ascii :=
  let n := N_of_ascii c in
  if ((65 <=? n) && (n <=? 90))%N then ascii_of_N (n + 32) else c.

Fixpoint lower_ascii (s : string) : string :=
  match s with
  | EmptyString => EmptyString
  | String c s' => String (ascii_lower c) (lower_ascii s')
  end.

(** An ASCII upper-case letter, and a string that contains one. *)
Definition is_upper (c : ascii) : bool :=
  let n := N_of_ascii c in ((65 <=? n) && (n <=? 90))%N.

Fixpoint has_upper (s : string) : bool :=
  match s with
  | EmptyString => false
  | String c s' => is_upper c || has_upper s'
  end.

End Py.

Import Py.

(** ** [aios/llm_core/adapter.py] *)

Module Adapter.

(** A backend class, named as in the registry module; an instance of one
    is the class together with the keyword arguments it was built from. *)
Definition pyclass := string.

Record model_params := {
  mp_llm_name : string;
  mp_log_mode : string;
  mp_use_context_manager : bool;
  mp_api_key : option string
}.

Record BaseLLM := {
  llm_class : pyclass;
  llm_params : model_params
}.

(** The adapter object: its only attribute is [self.model], which every
    path of [__init__] that returns has assigned. *)
Record LLMAdapter := { model : BaseLLM }.

Definition HfNativeLLM : pyclass := "HfNativeLLM".

Section Init.

(** [aios.llm_core.registry] is imported, not part of these sources: its
    two tables are parameters.  [BACKEND_REGISTRY] maps a backend id to a
    class and is only tested for membership and indexed; the keys of
    [MODEL_PREFIX_MAP] are iterated in insertion order, so it is kept as
    the list of its items. *)
Variable BACKEND_REGISTRY : gmap string pyclass.
Variable MODEL_PREFIX_MAP : list (string * string).

(** The call of [model_class] on [model_params]: the constructors belong
    to the backend modules and may raise. *)
Variable instantiate : pyclass -> model_params -> result BaseLLM.

(** The builtin [str.lower], on UTF-8 encoded strings. *)
Variable lower : string -> string.

(** [BACKEND_REGISTRY[k]] and [MODEL_PREFIX_MAP[k]]. *)
Definition registry_getitem (k : string) : result pyclass :=
  match BACKEND_REGISTRY !! k with
  | Some c => Return c
  | None => Raise (KeyError k)
  end.

Definition prefix_getitem (k : string) : result string :=
  match List.find (fun kv => String.eqb kv.1 k) MODEL_PREFIX_MAP with
  | Some kv => Return kv.2
  | None => Raise (KeyError k)
  end.

(** [llm_backend in BACKEND_REGISTRY], reached only for a truthy hint. *)
Definition in_registry (llm_backend : option string) : bool :=
  match llm_backend with
  | Some b => bool_decide (is_Some (BACKEND_REGISTRY !! b))
  | None => false
  end.

(** [next((prefix for prefix in MODEL_PREFIX_MAP.keys()
           if llm_name.lower().startswith(prefix)), None)] *)
Definition model_prefix_of (llm_name : string) : option string :=
  List.find (fun prefix => startswith (lower llm_name) prefix) MODEL_PREFIX_MAP.*1.

(** [self.model = model_class(...); return], on the keyword arguments [params]. *)
Definition build (model_class : pyclass) (params : model_params) : result LLMAdapter :=
  m ← instantiate model_class params; mret {| model := m |}.

(** [LLMAdapter.__init__]: the adapter, or the exception that escapes. *)
Definition init (llm_name : string) (max_gpu_memory : option pyobj)
    (eval_device : option string) (max_new_tokens : Z) (log_mode : string)
    (llm_backend : option string) (use_context_manager : bool)
    (api_key : option string) : result LLMAdapter :=
  let params :=
    {| mp_llm_name := llm_name; mp_log_mode := log_mode;
       mp_use_context_manager := use_context_manager; mp_api_key := api_key |} in
  if str_truthy llm_backend && in_registry llm_backend then
    model_class ← registry_getitem (default "" llm_backend);
    build model_class params
  else
    let model_prefix := model_prefix_of llm_name in
    if str_truthy model_prefix then
      inferred_backend ← prefix_getitem (default "" model_prefix);
      model_class ← registry_getitem inferred_backend;
      build model_class params
    else
      build HfNativeLLM params.

End Init.

(** What the specification asks of the registry tables: backend ids and
    prefixes are non-empty strings, and every prefix is mapped to a
    registered backend id. *)
Definition tables_ok (reg : gmap string pyclass) (pm : list (string * string)) : Prop :=
  reg !! "" = None /\
  Forall (fun kv => kv.1 <> "" /\ is_Some (reg !! kv.2)) pm.

End Adapter.

(** ** [runtime/kernel.py] *)

Module Kernel.

(** *** Request models *)

Record LLMConfig := {
  llm_name : string;
  max_gpu_memory : option pyobj;
  eval_device : string;
  max_new_tokens : Z;
  llm_log_mode : string;
  llm_backend : string;
  api_key : option string
}.

Record StorageConfig := {
  root_dir : string;
  use_vector_db : bool;
  vector_db_config : option (list (string * pyobj))
}.

Record MemoryConfig := {
  memory_limit : Z;
  eviction_k : Z;
  custom_eviction_policy : option string
}.

Record ToolManagerConfig := {
  allowed_tools : option (list string);
  custom_tools : option (list (string * pyobj))
}.

Record SchedulerConfig := {
  log_mode : string;
  max_workers : Z;
  custom_syscalls : option (list (string * pyobj))
}.

Record AgentSubmit := {
  agent_id : string;
  agent_config : gmap string pyobj
}.

Record LLMQuery := {
  messages : pyobj;
  tools : pyobj;
  action_type : pyobj;
  message_return_type : pyobj
}.

Inductive query_type_t := q_llm | q_tool | q_storage | q_memory.

Record QueryRequest := {
  agent_name : string;
  query_type : query_type_t;
  query_data : LLMQuery
}.

(** *** Component instances

    The objects the hooks hand back.  Each carries what the handlers
    observe of it: its class name, whether it has a [cleanup] attribute
    and what calling it does, what [start()] and [stop()] do. *)

Record manager := {
  mgr_class : string;
  mgr_cleanup : option (result unit)
}.

Record scheduler := {
  sched_class : string;
  sched_start : result unit;
  sched_stop : result unit
}.

(** The pair [useFactory] returns, kept as the dict
    [{"submit": submit_agent, "await": await_agent_execution}]. *)
Record factory := {
  fac_submit : string -> pyobj -> result pyobj;
  fac_await : Z -> result pyobj
}.

Inductive component :=
| Llm (a : Adapter.LLMAdapter)
| Manager (m : manager)
| Scheduler (s : scheduler)
| Factory (f : factory).

(** A slot of [active_components] holds [None] or a component. *)
Abbreviation slot := (option component).

(** [bool(x)]: [None] is falsy; the component classes define neither
    [__bool__] nor [__len__], and the factory dict has two items. *)
Definition truthy (v : slot) : bool :=
  match v with
  | Some _ => true
  | None => false
  end.

Definition class_name (v : slot) : string :=
  match v with
  | None => "NoneType"
  | Some (Llm _) => "LLMAdapter"
  | Some (Manager m) => mgr_class m
  | Some (Scheduler s) => sched_class s
  | Some (Factory _) => "dict"
  end.

(** The hooks and the syscall sender, as they answer during one request,
    and what [print(x)] does on a backend object [x]: it runs the
    [__str__] of the object's class, which may raise, and writes the text
    to the standard output.  The other calls of [print] in the file are on
    strings and are taken to return. *)
Record collaborators := {
  useCore : string -> string -> option pyobj -> string -> Z -> string ->
            result Adapter.LLMAdapter;
  useStorageManager : string -> bool -> list (string * pyobj) -> result manager;
  useMemoryManager : Z -> Z -> slot -> result manager;
  useToolManager : result manager;
  useFactory : string -> Z -> result factory;
  fifo_scheduler : slot -> slot -> slot -> slot -> string -> result scheduler;
  send_request : string -> LLMQuery -> result pyobj;
  py_print : Adapter.BaseLLM -> result unit
}.

(** *** The table and the monad of handler bodies

    [active_components] is one dict mutated in place: an assignment made
    before an exception is raised stays made.  A handler body is therefore
    a function from the table to the table and a result. *)

Abbreviation registry := (gmap string slot).

Definition active_components : registry :=
  list_to_map [("llm", None); ("storage", None); ("memory", None);
               ("tool", None); ("scheduler", None)].

Definition M (A : Type) : Type := registry -> registry * result A.

#[global] Instance M_ret : MRet M := fun A a r => (r, Return a).
#[global] Instance M_bind : MBind M := fun A B f m r =>
  match m r with
  | (r', Return a) => f a r'
  | (r', Raise e) => (r', Raise e)
  end.

(** A call into a collaborator. *)
Definition call {A} (res : result A) : M A := fun r => (r, res).

(** [active_components[k]] and [active_components[k] = v]. *)
Definition getitem (k : string) : M slot := fun r =>
  match r !! k with
  | Some v => (r, Return v)
  | None => (r, Raise (KeyError k))
  end.

Definition setitem (k : string) (v : slot) : M unit := fun r =>
  (<[k := v]> r, Return tt).

(** What a request gets back. *)
Inductive response :=
| Body (b : pyobj)
| StatusMap (m : gmap string string)
| HTTPException (status_code : Z) (detail : pyobj)
| Unhandled (e : exc).

Definition handler := registry -> registry * response.

(** [try: body  except Exception as e: ...] around a whole handler body. *)
Definition try_except (body : M pyobj) (except : exc -> response) : handler :=
  fun r =>
    match body r with
    | (r', Return v) => (r', Body v)
    | (r', Raise e) => (r', except e)
    end.

Definition success (message : string) : pyobj :=
  PyDict [("status", PyStr "success"); ("message", PyStr message)].

(** *** Setup handlers *)

Section Handlers.

Variable W : collaborators.

Definition setup_llm (config : LLMConfig) : handler :=
  try_except
    (llm ← call (useCore W (llm_name config) (llm_backend config)
                   (max_gpu_memory config) (eval_device config)
                   (max_new_tokens config) (llm_log_mode config));
     setitem "llm" (Some (Llm llm));;
     mret (success "LLM core initialized"))
    (fun e => HTTPException 500
                (PyStr ("Failed to initialize LLM core: " ++ exc_str e))).

Definition setup_storage (config : StorageConfig) : handler :=
  try_except
    (storage_manager ← call (useStorageManager W (root_dir config)
                               (use_vector_db config)
                               (default [] (vector_db_config config)));
     setitem "storage" (Some (Manager storage_manager));;
     mret (success "Storage manager initialized"))
    (fun e => HTTPException 500
                (PyStr ("Failed to initialize storage manager: " ++ exc_str e))).

Definition setup_memory (config : MemoryConfig) : handler := fun r =>
  match r !! "storage" with
  | None => (r, Unhandled (KeyError "storage"))
  | Some storage =>
    if negb (truthy storage) then
      (r, HTTPException 400 (PyStr "Storage manager must be initialized first"))
    else
      try_except
        (storage_manager ← getitem "storage";
         memory_manager ← call (useMemoryManager W (memory_limit config)
                                  (eviction_k config) storage_manager);
         setitem "memory" (Some (Manager memory_manager));;
         mret (success "Memory manager initialized"))
        (fun e => HTTPException 500
                    (PyStr ("Failed to initialize memory manager: " ++ exc_str e)))
        r
  end.

Definition setup_tool_manager (config : ToolManagerConfig) : handler :=
  try_except
    (tool_manager ← call (useToolManager W);
     setitem "tool" (Some (Manager tool_manager));;
     mret (success "Tool manager initialized"))
    (fun e => HTTPException 500
                (PyDict [("error", PyStr "Failed to initialize tool manager");
                         ("message", PyStr (exc_str e));
                         ("traceback", PyStr (exc_traceback e))])).

Definition required_components : list string := ["llm"; "memory"; "storage"; "tool"].

(** [[comp for comp in required_components if not active_components[comp]]] *)
Fixpoint missing_components (r : registry) (required : list string)
  : result (list string) :=
  match required with
  | [] => Return []
  | comp :: rest =>
    match r !! comp with
    | None => Raise (KeyError comp)
    | Some v =>
      missing ← missing_components r rest;
      Return (if truthy v then missing else comp :: missing)
    end
  end.

Definition missing_detail (missing : list string) : pyobj :=
  PyStr ("Missing required components: " ++ String.concat ", " missing).

(** [x.model], which an [LLMAdapter] always has; the factory setup reads
    it and prints it. *)
Definition getattr_model (v : slot) : result Adapter.BaseLLM :=
  match v with
  | Some (Llm a) => Return (Adapter.model a)
  | _ => Raise (AttributeError (class_name v) "model")
  end.

Definition setup_agent_factory (config : SchedulerConfig) : handler := fun r =>
  match missing_components r required_components with
  | Raise e => (r, Unhandled e)
  | Return ((_ :: _) as missing) => (r, HTTPException 400 (missing_detail missing))
  | Return [] =>
    try_except
      (f ← call (useFactory W (log_mode config) (max_workers config));
       setitem "factory" (Some (Factory f));;
       llm ← getitem "llm";
       model ← call (getattr_model llm);
       call (py_print W model);;
       mret (success "Agent factory initialized"))
      (fun e => HTTPException 500
                  (PyStr ("Failed to initialize agent factory: " ++ exc_str e)))
      r
  end.

Definition setup_scheduler (config : SchedulerConfig) : handler := fun r =>
  match missing_components r required_components with
  | Raise e => (r, Unhandled e)
  | Return ((_ :: _) as missing) => (r, HTTPException 400 (missing_detail missing))
  | Return [] =>
    try_except
      (llm ← getitem "llm";
       memory_manager ← getitem "memory";
       storage_manager ← getitem "storage";
       tool_manager ← getitem "tool";
       scheduler ← call (fifo_scheduler W llm memory_manager storage_manager
                           tool_manager (log_mode config));
       setitem "scheduler" (Some (Scheduler scheduler));;
       call (sched_start scheduler);;
       mret (success "Scheduler initialized"))
      (fun e => HTTPException 500
                  (PyStr ("Failed to initialize scheduler: " ++ exc_str e)))
      r
  end.

(** *** Status *)

Definition get_status (r : registry) : gmap string string :=
  (fun instance => if truthy instance then "active" else "inactive") <$> r.

(** *** Agents *)

(** ["factory" not in active_components or not active_components["factory"]] *)
Definition factory_missing (r : registry) : bool :=
  match r !! "factory" with
  | None => true
  | Some v => negb (truthy v)
  end.

Definition not_initialized : response :=
  HTTPException 400 (PyStr "Agent factory not initialized").

(** [active_components["factory"]["submit"]] and [...["await"]]. *)
Definition factory_submit (v : slot) : result (string -> pyobj -> result pyobj) :=
  match v with
  | Some (Factory f) => Return (fac_submit f)
  | _ => Raise (TypeError (class_name v))
  end.

Definition factory_await (v : slot) : result (Z -> result pyobj) :=
  match v with
  | Some (Factory f) => Return (fac_await f)
  | _ => Raise (TypeError (class_name v))
  end.

(** [config.agent_config["task"]] *)
Definition config_getitem (d : gmap string pyobj) (k : string) : result pyobj :=
  match d !! k with
  | Some v => Return v
  | None => Raise (KeyError k)
  end.

(** The debug lines print the agent id and the task, a string and a
    JSON value, and are taken to return. *)
Definition submit_agent (config : AgentSubmit) : handler := fun r =>
  if factory_missing r then (r, not_initialized)
  else
    try_except
      (fac ← getitem "factory";
       _submit_agent ← call (factory_submit fac);
       task ← call (config_getitem (agent_config config) "task");
       execution_id ← call (_submit_agent (agent_id config) task);
       mret (PyDict [("status", PyStr "success");
                     ("execution_id", execution_id);
                     ("message", PyStr ("Agent " ++ agent_id config
                                          ++ " submitted for execution"))]))
      (fun e => HTTPException 500
                  (PyDict [("error", PyStr "Failed to submit agent");
                           ("message", PyStr (exc_str e));
                           ("traceback", PyStr (exc_traceback e))]))
      r.

Definition running (execution_id : Z) : pyobj :=
  PyDict [("status", PyStr "running");
          ("message", PyStr "Execution in progress");
          ("execution_id", PyInt execution_id);
          ("debug_info", PyStr "Agent execution still in progress")].

Definition completed (execution_id : Z) (result : pyobj) : pyobj :=
  PyDict [("status", PyStr "completed");
          ("result", result);
          ("execution_id", PyInt execution_id)].

Definition error (execution_id : Z) (e : exc) : pyobj :=
  PyDict [("status", PyStr "error");
          ("message", PyStr (exc_str e));
          ("error", PyDict [("type", PyStr (exc_type e));
                            ("message", PyStr (exc_str e));
                            ("traceback", PyStr (exc_traceback e));
                            ("debug_logs", exc_debug_logs e)]);
          ("execution_id", PyInt execution_id)].

(** The inner [try] only logs and re-raises, so one handler stands for
    both; its [except] clause returns instead of raising.  The path
    parameter is already an [int], on which [int(execution_id)] is the
    identity. *)
Definition get_agent_status (execution_id : Z) : handler := fun r =>
  if factory_missing r then (r, not_initialized)
  else
    try_except
      (fac ← getitem "factory";
       await_execution ← call (factory_await fac);
       result ← call (await_execution execution_id);
       match result with
       | PyNone => mret (running execution_id)
       | _ => mret (completed execution_id result)
       end)
      (fun e => Body (error execution_id e))
      r.

(** *** Cleanup *)

(** [x.stop()] *)
Definition call_stop (v : slot) : result unit :=
  match v with
  | Some (Scheduler s) => sched_stop s
  | _ => Raise (AttributeError (class_name v) "stop")
  end.

(** [hasattr(x, "cleanup")] and [x.cleanup()]: the managers may define
    it, [LLMAdapter] and dicts do not. *)
Definition cleanup_attr (v : slot) : option (result unit) :=
  match v with
  | Some (Manager m) => mgr_cleanup m
  | _ => None
  end.

(** The body of the loop, for one component. *)
Definition cleanup_one (component : string) : M unit :=
  v ← getitem component;
  if truthy v then
    match cleanup_attr v with
    | Some cleanup => call cleanup
    | None => mret tt
    end;;
    setitem component None
  else mret tt.

Fixpoint cleanup_loop (components : list string) : M unit :=
  match components with
  | [] => mret tt
  | component :: rest => cleanup_one component;; cleanup_loop rest
  end.

(** The two statements before the loop. *)
Definition stop_scheduler : M unit :=
  sched ← getitem "scheduler";
  call (call_stop sched);;
  setitem "scheduler" None.

Definition cleanup_components : handler :=
  try_except
    (stop_scheduler;;
     cleanup_loop ["tool"; "memory"; "storage"; "llm"];;
     mret (success "All components cleaned up"))
    (fun e => HTTPException 500
                (PyStr ("Failed to cleanup components: " ++ exc_str e))).

(** The order in which cleanup goes through the slots, and the release
    step it performs on each of them. *)
Definition cleanup_order : list string :=
  ["scheduler"; "tool"; "memory"; "storage"; "llm"].

Definition release (component : string) : M unit :=
  if String.eqb component "scheduler" then stop_scheduler
  else cleanup_one component.

Fixpoint release_all (components : list string) : M unit :=
  match components with
  | [] => mret tt
  | component :: rest => release component;; release_all rest
  end.

(** *** Queries *)

Definition handle_query (request : QueryRequest) : handler :=
  try_except
    (match query_type request with
     | q_llm =>
       let query :=
         {| messages := messages (query_data request);
            tools := tools (query_data request);
            action_type := action_type (query_data request);
            message_return_type := message_return_type (query_data request) |} in
       call (send_request W (agent_name request) query)
     | _ => mret PyNone
     end)
    (fun e => HTTPException 500 (PyStr (exc_str e))).

End Handlers.

(** *** The service as a whole *)

Inductive request :=
| SetupLLM (config : LLMConfig)
| SetupStorage (config : StorageConfig)
| SetupMemory (config : MemoryConfig)
| SetupTool (config : ToolManagerConfig)
| SetupFactory (config : SchedulerConfig)
| SetupScheduler (config : SchedulerConfig)
| GetStatus
| SubmitAgent (config : AgentSubmit)
| GetAgentStatus (execution_id : Z)
| Cleanup
| Query (q : QueryRequest).

Definition serve (W : collaborators) (req : request) : handler :=
  match req with
  | SetupLLM config => setup_llm W config
  | SetupStorage config => setup_storage W config
  | SetupMemory config => setup_memory W config
  | SetupTool config => setup_tool_manager W config
  | SetupFactory config => setup_agent_factory W config
  | SetupScheduler config => setup_scheduler W config
  | GetStatus => fun r => (r, StatusMap (get_status r))
  | SubmitAgent config => submit_agent config
  | GetAgentStatus execution_id => get_agent_status execution_id
  | Cleanup => cleanup_components
  | Query q => handle_query W q
  end.

(** A history of requests, each with the collaborators' answers at that
    time, served one after the other. *)
Fixpoint run (history : list (collaborators * request)) (r : registry)
  : registry * list response :=
  match history with
  | [] => (r, [])
  | (W, req) :: rest =>
    let '(r1, resp) := serve W req r in
    let '(r2, resps) := run rest r1 in
    (r2, resp :: resps)
  end.

(** The tables a running service can be in. *)
Definition reachable (r : registry) : Prop :=
  exists history, (run history active_components).1 = r.

(** *** Vocabulary of the properties *)

(** The five keys the table starts with. *)
Definition core_keys : gset string :=
  {[ "llm"; "storage"; "memory"; "tool"; "scheduler" ]}.


(** What holds of every table a running service can be in: the five
    initial keys stay, the only other key is ["factory"], memory is set
    up only over a storage manager, and the llm slot holds an adapter. *)
Record invariant (r : registry) : Prop := {
  inv_core : forall k, k ∈ core_keys -> is_Some (r !! k);
  inv_dom : dom r ⊆ core_keys ∪ {[ "factory" ]};
  inv_memory : r !! "storage" = Some None -> r !! "memory" = Some None;
  inv_llm : forall c, r !! "llm" = Some (Some c) -> exists a, c = Llm a
}.

(** What serving one request can do to the table: nothing, one
    assignment to the slot the request is about, or a cleanup that went
    through the first slots of its order. *)
Inductive effect (r : registry) : request -> response -> registry -> Prop :=
| effect_none req resp :
    (forall config, req = SetupFactory config ->
                    resp <> Body (success "Agent factory initialized")) ->
    effect r req resp r
| effect_llm config resp a :
    effect r (SetupLLM config) resp (<["llm" := Some (Llm a)]> r)
| effect_storage config resp m :
    effect r (SetupStorage config) resp (<["storage" := Some (Manager m)]> r)
| effect_memory config resp m c :
    r !! "storage" = Some (Some c) ->
    effect r (SetupMemory config) resp (<["memory" := Some (Manager m)]> r)
| effect_tool config resp m :
    effect r (SetupTool config) resp (<["tool" := Some (Manager m)]> r)
| effect_factory config resp f :
    effect r (SetupFactory config) resp (<["factory" := Some (Factory f)]> r)
| effect_scheduler config resp s :
    effect r (SetupScheduler config) resp
           (<["scheduler" := Some (Scheduler s)]> r)
| effect_cleanup resp r' done rest :
    cleanup_order = (done ++ rest)%list ->
    (forall k, k ∈ done -> is_Some (r !! k) /\ r' !! k = Some None) ->
    (forall k, k ∉ done -> r' !! k = r !! k) ->
    effect r Cleanup resp r'.

(** The components that the prerequisite check of the scheduler and of
    the factory finds inactive, when the four keys are in the table. *)
Definition inactive_required (r : registry) : list string :=
  List.filter (fun comp => negb (truthy (default None (r !! comp))))
              required_components.

(** A slot that holds a component. *)
Definition active (r : registry) (k : string) : Prop :=
  exists c, r !! k = Some (Some c).

(** While the scheduler slot is active, so are the four it was built on. *)
Definition scheduler_dependencies (r : registry) : Prop :=
  active r "scheduler" ->
  forall k, k ∈ required_components -> active r k.

End Kernel.

(** ** Concrete inputs used by the examples *)

Module Samples.

Import Adapter Kernel.

(** Tables in the shape of the registry module's. *)
Definition BACKEND_REGISTRY : gmap string pyclass :=
  list_to_map [("openai", "GPTLLM"); ("anthropic", "ClaudeLLM");
               ("ollama", "OllamaLLM"); ("vllm", "vLLM")].

Definition MODEL_PREFIX_MAP : list (string * string) :=
  [("gpt", "openai"); ("claude", "anthropic"); ("ollama", "ollama")].

Definition instantiate (c : pyclass) (p : model_params) : result BaseLLM :=
  Return {| llm_class := c; llm_params := p |}.

Definition params_of (name : string) : model_params :=
  {| mp_llm_name := name; mp_log_mode := "console";
     mp_use_context_manager := false; mp_api_key := None |}.

(** Components and collaborators. *)
Definition boom : exc :=
  {| exc_type := "RuntimeError"; exc_str := "boom";
     exc_traceback := "Traceback (most recent call last): RuntimeError: boom";
     exc_debug_logs := PyNone |}.

Definition adapter : LLMAdapter :=
  {| model := {| llm_class := "GPTLLM"; llm_params := params_of "gpt-4" |} |}.

Definition storage_manager : manager :=
  {| mgr_class := "StorageManager"; mgr_cleanup := None |}.

Definition memory_manager : manager :=
  {| mgr_class := "MemoryManager"; mgr_cleanup := Some (Return tt) |}.

Definition tool_manager : manager :=
  {| mgr_class := "ToolManager"; mgr_cleanup := Some (Return tt) |}.

Definition failing_tool_manager : manager :=
  {| mgr_class := "ToolManager"; mgr_cleanup := Some (Raise boom) |}.

Definition fifo : scheduler :=
  {| sched_class := "FIFOScheduler"; sched_start := Return tt;
     sched_stop := Return tt |}.

Definition fifo_start_fails : scheduler :=
  {| sched_class := "FIFOScheduler"; sched_start := Raise boom;
     sched_stop := Return tt |}.

Definition agent_factory : factory :=
  {| fac_submit := fun _ _ => Return (PyInt 0);
     fac_await := fun _ => Return PyNone |}.

Definition W : collaborators :=
  {| useCore := fun _ _ _ _ _ _ => Return adapter;
     useStorageManager := fun _ _ _ => Return storage_manager;
     useMemoryManager := fun _ _ _ => Return memory_manager;
     useToolManager := Return tool_manager;
     useFactory := fun _ _ => Return agent_factory;
     fifo_scheduler := fun _ _ _ _ _ => Return fifo;
     send_request := fun _ _ => Return (PyStr "response");
     py_print := fun _ => Return tt |}.

Definition W_start_fails : collaborators :=
  {| useCore := useCore W;
     useStorageManager := useStorageManager W;
     useMemoryManager := useMemoryManager W;
     useToolManager := useToolManager W;
     useFactory := useFactory W;
     fifo_scheduler := fun _ _ _ _ _ => Return fifo_start_fails;
     send_request := send_request W;
     py_print := py_print W |}.

(** The same collaborators with a backend object whose [__str__] raises. *)
Definition W_print_fails : collaborators :=
  {| useCore := useCore W;
     useStorageManager := useStorageManager W;
     useMemoryManager := useMemoryManager W;
     useToolManager := useToolManager W;
     useFactory := useFactory W;
     fifo_scheduler := fifo_scheduler W;
     send_request := send_request W;
     py_print := fun _ => Raise boom |}.

Definition llm_config : LLMConfig :=
  {| llm_name := "gpt-4"; max_gpu_memory := None; eval_device := "cuda:0";
     max_new_tokens := 2048; llm_log_mode := "INFO";
     llm_backend := "default"; api_key := None |}.

Definition tool_config : ToolManagerConfig :=
  {| allowed_tools := None; custom_tools := None |}.

Definition storage_config : StorageConfig :=
  {| root_dir := "root"; use_vector_db := false; vector_db_config := None |}.

Definition memory_config : MemoryConfig :=
  {| memory_limit := 104857600; eviction_k := 10;
     custom_eviction_policy := None |}.

Definition scheduler_config : SchedulerConfig :=
  {| log_mode := "INFO"; max_workers := 64; custom_syscalls := None |}.

Definition writer : AgentSubmit :=
  {| agent_id := "writer-1";
     agent_config := {[ "task" := PyStr "summarize X" ]} |}.

Definition tool_query : QueryRequest :=
  {| agent_name := "writer-1"; query_type := q_tool;
     query_data := {| messages := PyList []; tools := PyNone;
                      action_type := PyStr "chat";
                      message_return_type := PyStr "text" |} |}.

(** Tables. *)
Definition only_llm_storage : registry :=
  <["llm" := Some (Llm adapter)]>
    (<["storage" := Some (Manager storage_manager)]> active_components).

Definition ready : registry :=
  <["memory" := Some (Manager memory_manager)]>
    (<["tool" := Some (Manager tool_manager)]> only_llm_storage).

Definition running_all : registry :=
  <["factory" := Some (Factory agent_factory)]>
    (<["scheduler" := Some (Scheduler fifo)]> ready).

(** The requests that bring a fresh service to [ready]. *)
Definition boot : list (collaborators * request) :=
  [(W, SetupLLM llm_config); (W, SetupStorage storage_config);
   (W, SetupMemory memory_config); (W, SetupTool tool_config)].

Definition tool_release_fails : registry :=
  <["tool" := Some (Manager failing_tool_manager)]>
    (<["scheduler" := Some (Scheduler fifo)]> ready).

(** A prefix table whose first entry maps to an id that is not
    registered, and one that starts with the empty prefix. *)
Definition DANGLING_PREFIX_MAP : list (string * string) :=
  [("gpt", "azure"); ("claude", "anthropic")].

Definition MIXED_CASE_PREFIX_MAP : list (string * string) :=
  [("GPT", "ollama"); ("gpt", "openai")].

Definition EMPTY_PREFIX_MAP : list (string * string) :=
  [("", "openai"); ("gpt", "openai")].

(** Collaborators whose every call raises. *)
Definition W_fails : collaborators :=
  {| useCore := fun _ _ _ _ _ _ => Raise boom;
     useStorageManager := fun _ _ _ => Raise boom;
     useMemoryManager := fun _ _ _ => Raise boom;
     useToolManager := Raise boom;
     useFactory := fun _ _ => Raise boom;
     fifo_scheduler := fun _ _ _ _ _ => Raise boom;
     send_request := fun _ _ => Raise boom;
     py_print := fun _ => Raise boom |}.

(** A factory setup refused on the fresh table, the boot sequence, then
    a factory setup whose hook raises. *)
Definition boot_without_factory : list (collaborators * request) :=
  ((W, SetupFactory scheduler_config) :: boot
   ++ [(W_fails, SetupFactory scheduler_config)])%list.

Definition no_task : AgentSubmit :=
  {| agent_id := "writer-1"; agent_config := ∅ |}.

Definition llm_query : QueryRequest :=
  {| agent_name := "writer-1"; query_type := q_llm;
     query_data := {| messages := PyList []; tools := PyNone;
                      action_type := PyStr "chat";
                      message_return_type := PyStr "text" |} |}.

End Samples.

(** * Properties *)

Import Adapter.

(** ** Backend resolution *)

Section Resolution.

Variable BACKEND_REGISTRY : gmap string pyclass.
Variable MODEL_PREFIX_MAP : list (string * string).
Variable instantiate : pyclass -> model_params -> result BaseLLM.
Variable lower : string -> string.

Lemma str_truthy_Some (s : string) : s <> "" -> str_truthy (Some s) = true.
Proof. destruct s; [congruence | reflexivity]. Qed.

#[local] Arguments str_truthy : simpl never.

Lemma registry_getitem_Some k cls :
  BACKEND_REGISTRY !! k = Some cls ->
  registry_getitem BACKEND_REGISTRY k = Return cls.
Proof. intros H. unfold registry_getitem. now rewrite H. Qed.

(** The first key that passes a test is the key of the first item whose
    key passes it, and indexing the table by that key gives that item. *)
Lemma find_key_item (f : string -> bool) (pm : list (string * string)) :
  List.find f pm.*1 = fst <$> List.find (fun kv => f kv.1) pm.
Proof.
  induction pm as [|[p b] pm IH]; simpl; [reflexivity|].
  destruct (f p); [reflexivity | exact IH].
Qed.

Lemma prefix_getitem_first (f : string -> bool) (pm : list (string * string)) kv :
  List.find (fun kv => f kv.1) pm = Some kv ->
  prefix_getitem pm kv.1 = Return kv.2.
Proof.
  unfold prefix_getitem.
  induction pm as [|[p b] pm IH]; simpl; [discriminate|].
  destruct (f p) eqn:Hf.
  - intros [= <-]. simpl. now rewrite String.eqb_refl.
  - intros Hfind. destruct (String.eqb_spec p kv.1) as [->|Hne].
    + apply List.find_some in Hfind as [_ Hkv]. congruence.
    + auto.
Qed.

Lemma find_Forall {A} (P : A -> Prop) (f : A -> bool) (l : list A) x :
  Forall P l -> List.find f l = Some x -> P x.
Proof.
  intros HP Hfind. apply List.find_some in Hfind as [Hin _].
  rewrite Forall_forall in HP. apply HP. now apply list_elem_of_In.
Qed.

(** [init] once the hint has been set aside. *)
Lemma init_fallthrough name gpu dev tok log hint ctx key :
  tables_ok BACKEND_REGISTRY MODEL_PREFIX_MAP ->
  str_truthy hint && in_registry BACKEND_REGISTRY hint = false ->
  match List.find (fun kv => startswith (lower name) kv.1) MODEL_PREFIX_MAP with
  | Some kv =>
    exists cls, BACKEND_REGISTRY !! kv.2 = Some cls /\
      init BACKEND_REGISTRY MODEL_PREFIX_MAP instantiate lower
           name gpu dev tok log hint ctx key
      = build instantiate cls
          {| mp_llm_name := name; mp_log_mode := log;
             mp_use_context_manager := ctx; mp_api_key := key |}
  | None =>
    init BACKEND_REGISTRY MODEL_PREFIX_MAP instantiate lower
         name gpu dev tok log hint ctx key
    = build instantiate HfNativeLLM
        {| mp_llm_name := name; mp_log_mode := log;
           mp_use_context_manager := ctx; mp_api_key := key |}
  end.
Proof.
  intros [_ Hpm] Hhint. unfold init. rewrite Hhint.
  unfold model_prefix_of. rewrite find_key_item.
  destruct (List.find _ MODEL_PREFIX_MAP) as [kv|] eqn:Hfind; simpl.
  - destruct (find_Forall _ _ _ _ Hpm Hfind) as [Hne [cls Hcls]].
    exists cls. split; [exact Hcls|].
    rewrite (str_truthy_Some _ Hne).
    rewrite (prefix_getitem_first _ _ _ Hfind). simpl.
    now rewrite (registry_getitem_Some _ _ Hcls).
  - reflexivity.
Qed.

(** [init] on a hint that is truthy and registered. *)
Lemma init_hint name gpu dev tok log hint ctx key cls :
  hint <> "" ->
  BACKEND_REGISTRY !! hint = Some cls ->
  init BACKEND_REGISTRY MODEL_PREFIX_MAP instantiate lower
       name gpu dev tok log (Some hint) ctx key
  = build instantiate cls
      {| mp_llm_name := name; mp_log_mode := log;
         mp_use_context_manager := ctx; mp_api_key := key |}.
Proof.
  intros Hne Hreg. unfold init.
  rewrite (str_truthy_Some _ Hne). simpl.
  rewrite bool_decide_eq_true_2 by (rewrite Hreg; eauto).
  now rewrite (registry_getitem_Some _ _ Hreg).
Qed.

(** C5: an explicit hint that is a registered backend id decides the
    backend: [init] calls the constructor of the class registered under
    the hint, on the model parameters, and returns an adapter around the
    model it gives (or raises what it raises), whatever the model name and
    whatever prefix it starts with.  The registry table is a parameter;
    its ids are non-empty strings. *)
Theorem explicit_hint_wins name gpu dev tok log hint ctx key cls :
  BACKEND_REGISTRY !! "" = None ->
  BACKEND_REGISTRY !! hint = Some cls ->
  init BACKEND_REGISTRY MODEL_PREFIX_MAP instantiate lower
       name gpu dev tok log (Some hint) ctx key
  = match instantiate cls
            {| mp_llm_name := name; mp_log_mode := log;
               mp_use_context_manager := ctx; mp_api_key := key |} with
    | Return m => Return {| model := m |}
    | Raise e => Raise e
    end.
Proof.
  intros Hempty Hreg. apply init_hint; [|exact Hreg].
  intros ->. congruence.
Qed.

(** C6: resolution never raises by itself: [init] always comes down to
    one call of the constructor of some class, whose model it wraps and
    whose exception it lets through; and when the hint is absent or is
    not a registered backend id it is ignored: the class is the one
    registered for the first prefix, in table order, that the lowercased
    model name starts with, and [HfNativeLLM] when there is none.
    [lower] is any function: the builtin is one. *)
Theorem resolution_total name gpu dev tok log hint ctx key :
  tables_ok BACKEND_REGISTRY MODEL_PREFIX_MAP ->
  let params := {| mp_llm_name := name; mp_log_mode := log;
                   mp_use_context_manager := ctx; mp_api_key := key |} in
  let run := init BACKEND_REGISTRY MODEL_PREFIX_MAP instantiate lower
                  name gpu dev tok log hint ctx key in
  (exists cls,
     run = match instantiate cls params with
           | Return m => Return {| model := m |}
           | Raise e => Raise e
           end) /\
  (from_option (fun h => BACKEND_REGISTRY !! h = None) True hint ->
   match List.find (fun kv => startswith (lower name) kv.1) MODEL_PREFIX_MAP with
   | Some kv =>
     exists cls, BACKEND_REGISTRY !! kv.2 = Some cls /\
                 run = match instantiate cls params with
                       | Return m => Return {| model := m |}
                       | Raise e => Raise e
                       end
   | None =>
     run = match instantiate HfNativeLLM params with
           | Return m => Return {| model := m |}
           | Raise e => Raise e
           end
   end).
Proof.
  intros Hok params run.
  assert (str_truthy hint && in_registry BACKEND_REGISTRY hint = false ->
          exists cls, run = build instantiate cls params) as Hfall.
  { intros Hhint.
    pose proof (init_fallthrough name gpu dev tok log hint ctx key Hok Hhint) as H.
    destruct (List.find _ MODEL_PREFIX_MAP); [destruct H as (cls & _ & H)|]; eauto. }
  split.
  - destruct (str_truthy hint && in_registry BACKEND_REGISTRY hint) eqn:Hhint;
      [|now apply Hfall].
    apply andb_true_iff in Hhint as [Ht Hin].
    destruct hint as [h|]; [|discriminate]. simpl in Hin.
    apply bool_decide_eq_true_1 in Hin as [cls Hcls].
    exists cls. apply init_hint; [|exact Hcls].
    intros ->. discriminate.
  - intros Hhint. apply init_fallthrough; [exact Hok|].
    destruct hint as [h|]; simpl in *; [|reflexivity].
    rewrite bool_decide_eq_false_2; [apply andb_false_r|].
    rewrite Hhint. now intros [? ?].
Qed.

End Resolution.

(** The example of the specification: name gpt-4 with hint ollama, where
    the name starts with the prefix gpt of another backend. *)
Lemma explicit_hint_wins_witness :
  Samples.BACKEND_REGISTRY !! "" = None /\
  Samples.BACKEND_REGISTRY !! "ollama" = Some "OllamaLLM" /\
  model_prefix_of Samples.MODEL_PREFIX_MAP lower_ascii "gpt-4" = Some "gpt" /\
  init Samples.BACKEND_REGISTRY Samples.MODEL_PREFIX_MAP Samples.instantiate
       lower_ascii "gpt-4" None None 256 "console" (Some "ollama") false None
  = Return {| model :=
                {| llm_class := "OllamaLLM";
                   llm_params :=
                     {| mp_llm_name := "gpt-4"; mp_log_mode := "console";
                        mp_use_context_manager := false;
                        mp_api_key := None |} |} |}.
Proof.
  split; [reflexivity|]. split; [reflexivity|]. split; [reflexivity|].
  exact (explicit_hint_wins Samples.BACKEND_REGISTRY Samples.MODEL_PREFIX_MAP
           Samples.instantiate lower_ascii "gpt-4" None None 256 "console"
           "ollama" false None "OllamaLLM" eq_refl eq_refl).
Defined.

Lemma sample_tables_ok :
  tables_ok Samples.BACKEND_REGISTRY Samples.MODEL_PREFIX_MAP.
Proof.
  split; [reflexivity|].
  repeat constructor; simpl; try discriminate; eexists; reflexivity.
Defined.

(** The kernel's default hint, the string default, is not a backend id:
    GPT-4 is served by the class registered for the prefix gpt. *)
Lemma resolution_total_witness :
  tables_ok Samples.BACKEND_REGISTRY Samples.MODEL_PREFIX_MAP /\
  Samples.BACKEND_REGISTRY !! "default" = None /\
  exists cls, Samples.BACKEND_REGISTRY !! "openai" = Some cls /\
    init Samples.BACKEND_REGISTRY Samples.MODEL_PREFIX_MAP Samples.instantiate
         lower_ascii "GPT-4" None None 256 "console" (Some "default") false None
    = match Samples.instantiate cls (Samples.params_of "GPT-4") with
      | Return m => Return {| model := m |}
      | Raise e => Raise e
      end.
Proof.
  split; [exact sample_tables_ok|]. split; [reflexivity|].
  exact (proj2 (resolution_total Samples.BACKEND_REGISTRY Samples.MODEL_PREFIX_MAP
                  Samples.instantiate lower_ascii "GPT-4" None None 256 "console"
                  (Some "default") false None sample_tables_ok) eq_refl).
Defined.

(** ** Component lifecycle *)

Import Kernel.

Ltac unfold_M :=
  unfold try_except, mbind, M_bind, mret, M_ret, call, getitem, setitem in *.

(** *** Prerequisites *)

(** C8: with only llm and storage active, setting up the scheduler is
    refused with status 400, the detail names memory and tool in that
    order, and the table, hence the scheduler slot, is left as it was. *)
Theorem scheduler_names_missing W config (r : registry) lv sv :
  r !! "llm" = Some (Some lv) ->
  r !! "storage" = Some (Some sv) ->
  r !! "memory" = Some None ->
  r !! "tool" = Some None ->
  r !! "scheduler" = Some None ->
  setup_scheduler W config r
  = (r, HTTPException 400 (PyStr "Missing required components: memory, tool")) /\
  get_status (setup_scheduler W config r).1 !! "scheduler" = Some "inactive".
Proof.
  intros Hllm Hstorage Hmemory Htool Hsched.
  assert (setup_scheduler W config r
          = (r, HTTPException 400
                  (PyStr "Missing required components: memory, tool"))) as ->.
  { unfold setup_scheduler, required_components, missing_components.
    rewrite Hllm, Hmemory, Hstorage, Htool. reflexivity. }
  split; [reflexivity|].
  unfold get_status. simpl. now rewrite lookup_fmap, Hsched.
Qed.

Lemma scheduler_names_missing_witness :
  setup_scheduler Samples.W Samples.scheduler_config Samples.only_llm_storage
  = (Samples.only_llm_storage,
     HTTPException 400 (PyStr "Missing required components: memory, tool")) /\
  get_status (setup_scheduler Samples.W Samples.scheduler_config
                Samples.only_llm_storage).1 !! "scheduler" = Some "inactive".
Proof.
  apply (scheduler_names_missing Samples.W Samples.scheduler_config
           Samples.only_llm_storage (Llm Samples.adapter)
           (Manager Samples.storage_manager)); reflexivity.
Defined.

(** *** Polling *)

(** C4: with an active factory, polling answers with a body whose first
    field is a status that reads running, completed or error, raises
    nothing and leaves the table alone; a [None] from the await primitive
    gives the running body, any other value the completed body with that
    value as result, and an exception raised while polling the error body
    with its message and, under error, its type name, message, traceback
    and debug logs. *)
Theorem poll_total (r : registry) c execution_id :
  r !! "factory" = Some (Some c) ->
  (get_agent_status execution_id r).1 = r /\
  (exists st fields,
     (get_agent_status execution_id r).2
     = Body (PyDict (("status", PyStr st) :: fields)) /\
     st ∈ ["running"; "completed"; "error"]) /\
  (forall f, c = Factory f ->
     (get_agent_status execution_id r).2
     = match fac_await f execution_id with
       | Return PyNone =>
         Body (PyDict [("status", PyStr "running");
                       ("message", PyStr "Execution in progress");
                       ("execution_id", PyInt execution_id);
                       ("debug_info",
                        PyStr "Agent execution still in progress")])
       | Return result =>
         Body (PyDict [("status", PyStr "completed");
                       ("result", result);
                       ("execution_id", PyInt execution_id)])
       | Raise e =>
         Body (PyDict [("status", PyStr "error");
                       ("message", PyStr (exc_str e));
                       ("error",
                        PyDict [("type", PyStr (exc_type e));
                                ("message", PyStr (exc_str e));
                                ("traceback", PyStr (exc_traceback e));
                                ("debug_logs", exc_debug_logs e)]);
                       ("execution_id", PyInt execution_id)])
       end).
Proof.
  intros Hfac. unfold get_agent_status, factory_missing.
  rewrite Hfac. simpl. unfold_M. rewrite Hfac.
  destruct c as [a|m|s|f]; simpl;
    try (split; [reflexivity|]; split;
         [eexists "error", _; split; [reflexivity | set_solver]
         | intros ? [=]]).
  destruct (fac_await f execution_id) as [res|e] eqn:Hawait; simpl.
  - destruct res; simpl; (split; [reflexivity|]); (split;
      [| intros ? [= <-]; now rewrite Hawait]);
      [eexists "running", _ | eexists "completed", _ ..];
      (split; [reflexivity | set_solver]).
  - split; [reflexivity|]. split; [| intros ? [= <-]; now rewrite Hawait].
    eexists "error", _. split; [reflexivity | set_solver].
Qed.

Lemma poll_total_witness :
  (get_agent_status 0 Samples.running_all).1 = Samples.running_all /\
  (get_agent_status 0 Samples.running_all).2
  = Body (PyDict [("status", PyStr "running");
                  ("message", PyStr "Execution in progress");
                  ("execution_id", PyInt 0);
                  ("debug_info", PyStr "Agent execution still in progress")]).
Proof.
  destruct (poll_total Samples.running_all (Factory Samples.agent_factory) 0
              eq_refl) as (Hr & _ & Hf).
  split; [exact Hr | exact (Hf Samples.agent_factory eq_refl)].
Defined.

(** *** Cleanup, slot by slot *)

Lemma release_cases k (r : registry) :
  (exists e, release k r = (r, Raise e)) \/
  (is_Some (r !! k) /\ release k r = (<[k := None]> r, Return tt)).
Proof.
  unfold release, stop_scheduler, cleanup_one.
  destruct (String.eqb_spec k "scheduler") as [->|Hk]; unfold_M;
    destruct (r !! _) as [[c|]|] eqn:Hr; simpl;
    try (left; eexists; reflexivity).
  - destruct c as [a|m|s|f]; simpl; try (left; eexists; reflexivity).
    destruct (sched_stop s) as [[]|e];
      [right; split; [eauto | reflexivity] | left; eexists; reflexivity].
  - destruct c as [a|m|s|f]; simpl;
      try (right; split; [eauto | reflexivity]).
    destruct (mgr_cleanup m) as [[[]|e]|];
      [right; split; [eauto | reflexivity]
      | left; eexists; reflexivity
      | right; split; [eauto | reflexivity]].
  - right. split; [eauto|]. now rewrite insert_id.
Qed.

(** Whether a release raises depends on the slot alone. *)
Lemma release_result k (r1 r2 : registry) :
  r1 !! k = r2 !! k -> (release k r1).2 = (release k r2).2.
Proof.
  intros Heq. unfold release, stop_scheduler, cleanup_one.
  destruct (String.eqb_spec k "scheduler") as [->|Hk]; unfold_M; rewrite Heq;
    destruct (r2 !! _) as [[c|]|]; simpl; try reflexivity.
  - destruct c as [a|m|s|f]; simpl; try reflexivity.
    destruct (sched_stop s) as [[]|e]; reflexivity.
  - destruct c as [a|m|s|f]; simpl; try reflexivity.
    destruct (mgr_cleanup m) as [[[]|e]|]; reflexivity.
Qed.

Lemma release_all_spec ks (r : registry) :
  NoDup ks ->
  exists done rest,
    ks = (done ++ rest)%list /\
    (forall k, k ∈ done ->
               is_Some (r !! k) /\ (release_all ks r).1 !! k = Some None) /\
    (forall k, k ∉ done -> (release_all ks r).1 !! k = r !! k) /\
    match rest with
    | [] => (release_all ks r).2 = Return tt
    | failing :: _ =>
      exists e, (release failing r).2 = Raise e /\
                (release_all ks r).2 = Raise e
    end.
Proof.
  revert r. induction ks as [|k ks IH]; intros r Hnodup.
  - exists [], []. repeat split; set_solver.
  - apply NoDup_cons in Hnodup as [Hk Hnodup].
    assert (release_all (k :: ks) r
            = match release k r with
              | (r', Return _) => release_all ks r'
              | (r', Raise e) => (r', Raise e)
              end) as -> by reflexivity.
    destruct (release_cases k r) as [[e He]|[Hsome He]]; rewrite He.
    + exists [], (k :: ks). simpl. split; [reflexivity|]. split; [|split].
      * intros x Hx. now apply elem_of_nil in Hx.
      * reflexivity.
      * exists e. now rewrite He.
    + destruct (IH (<[k := None]> r) Hnodup) as (done & rest & -> & Hd & Hu & Hr).
      exists (k :: done), rest. split; [reflexivity|]. split; [|split].
      * intros x [->|Hx]%elem_of_cons.
        -- split; [exact Hsome|].
           destruct (decide (k ∈ done)) as [Hin|Hin]; [now apply Hd|].
           rewrite (Hu _ Hin). apply lookup_insert_eq.
        -- destruct (Hd _ Hx) as [Hs ->]. split; [|reflexivity].
           destruct (decide (k = x)) as [->|Hne]; [exact Hsome|].
           now rewrite lookup_insert_ne in Hs.
      * intros x Hx. apply not_elem_of_cons in Hx as [Hne Hx].
        rewrite (Hu _ Hx). now apply lookup_insert_ne.
      * destruct rest as [|failing rest]; [exact Hr|].
        destruct Hr as (e & Hrel & Hres). exists e. split; [|exact Hres].
        rewrite <- Hrel. apply release_result.
        symmetry. apply lookup_insert_ne. intros ->. apply Hk.
        apply elem_of_app. right. apply elem_of_cons. now left.
Qed.

Lemma cleanup_order_NoDup : NoDup cleanup_order.
Proof. apply (bool_decide_unpack _). reflexivity. Qed.

Lemma cleanup_components_release (r : registry) :
  cleanup_components r
  = ((release_all cleanup_order r).1,
     match (release_all cleanup_order r).2 with
     | Return _ => Body (success "All components cleaned up")
     | Raise e => HTTPException 500
                    (PyStr ("Failed to cleanup components: " ++ exc_str e))
     end).
Proof.
  pose (loop := release_all ["tool"; "memory"; "storage"; "llm"]).
  pose (failed := fun e : exc =>
          HTTPException 500
            (PyStr ("Failed to cleanup components: " ++ exc_str e))).
  assert (release_all cleanup_order r
          = match release "scheduler" r with
            | (r1, Return _) => loop r1
            | (r1, Raise e) => (r1, Raise e)
            end) as -> by reflexivity.
  assert (cleanup_components r
          = match release "scheduler" r with
            | (r1, Return _) =>
              match loop r1 with
              | (r2, Return _) => (r2, Body (success "All components cleaned up"))
              | (r2, Raise e) => (r2, failed e)
              end
            | (r1, Raise e) => (r1, failed e)
            end) as ->.
  { unfold cleanup_components, try_except.
    change stop_scheduler with (release "scheduler").
    change (cleanup_loop ["tool"; "memory"; "storage"; "llm"]) with loop.
    unfold mbind, M_bind, mret, M_ret.
    destruct (release "scheduler" r) as [r1 [[]|e]]; [|reflexivity].
    destruct (loop r1) as [r2 [[]|e]]; reflexivity. }
  destruct (release "scheduler" r) as [r1 [[]|e]]; [|reflexivity].
  destruct (loop r1) as [r2 [[]|e]]; reflexivity.
Qed.

(** Cleanup clears a first part of its order and touches nothing else;
    it succeeds when that part is the whole order, and otherwise reports
    what the release of the next slot raised. *)
Lemma cleanup_components_spec (r : registry) :
  exists done rest,
    cleanup_order = (done ++ rest)%list /\
    (forall k, k ∈ done ->
               is_Some (r !! k) /\ (cleanup_components r).1 !! k = Some None) /\
    (forall k, k ∉ done -> (cleanup_components r).1 !! k = r !! k) /\
    match rest with
    | [] => (cleanup_components r).2 = Body (success "All components cleaned up")
    | failing :: _ =>
      exists e, (release failing r).2 = Raise e /\
                (cleanup_components r).2
                = HTTPException 500
                    (PyStr ("Failed to cleanup components: " ++ exc_str e))
    end.
Proof.
  destruct (release_all_spec cleanup_order r cleanup_order_NoDup)
    as (done & rest & Hsplit & Hd & Hu & Hr).
  assert ((cleanup_components r).1 = (release_all cleanup_order r).1) as ->
    by now rewrite cleanup_components_release.
  exists done, rest. do 3 (split; [assumption|]).
  rewrite cleanup_components_release. cbn [snd].
  destruct rest as [|failing rest]; [now rewrite Hr|].
  destruct Hr as (e & Hrel & ->). eauto.
Qed.

Lemma get_status_lookup (r : registry) k :
  get_status r !! k
  = (fun v => if truthy v then "active" else "inactive") <$> r !! k.
Proof. apply lookup_fmap. Qed.

Lemma factory_not_in_order done rest :
  cleanup_order = (done ++ rest)%list -> "factory" ∉ done.
Proof.
  intros Hsplit Hin.
  assert ("factory" ∈ cleanup_order) as Hcontra
    by (rewrite Hsplit; apply elem_of_app; now left).
  revert Hcontra. apply (bool_decide_unpack _). reflexivity.
Qed.




(** C9: cleanup never touches the factory entry, whether it succeeds or
    fails: the entry still holds its submit and await handles, reads
    active, and a later submission passes the factory check and goes
    through the factory's submit handle. *)
Theorem cleanup_keeps_factory (r : registry) f config :
  r !! "factory" = Some (Some (Factory f)) ->
  let r' := (cleanup_components r).1 in
  r' !! "factory" = Some (Some (Factory f)) /\
  get_status r' !! "factory" = Some "active" /\
  factory_missing r' = false /\
  (submit_agent config r').2 <> not_initialized /\
  (forall task execution_id,
     agent_config config !! "task" = Some task ->
     fac_submit f (agent_id config) task = Return execution_id ->
     submit_agent config r'
     = (r', Body (PyDict [("status", PyStr "success");
                          ("execution_id", execution_id);
                          ("message", PyStr ("Agent " ++ agent_id config
                                               ++ " submitted for execution"))]))).
Proof.
  intros Hfac r'.
  assert (r' !! "factory" = Some (Some (Factory f))) as Hfac'.
  { destruct (cleanup_components_spec r) as (done & rest & Hsplit & _ & Hu & _).
    unfold r'. rewrite Hu; [exact Hfac|]. eapply factory_not_in_order, Hsplit. }
  split; [exact Hfac'|]. split; [now rewrite get_status_lookup, Hfac'|].
  assert (factory_missing r' = false) as Hmissing
    by (unfold factory_missing; now rewrite Hfac').
  split; [exact Hmissing|].
  unfold submit_agent. rewrite Hmissing. unfold_M. rewrite Hfac'. simpl.
  unfold config_getitem. split.
  - destruct (agent_config config !! "task") as [task|]; simpl; [|discriminate].
    destruct (fac_submit f (agent_id config) task); discriminate.
  - intros task execution_id -> ->. reflexivity.
Qed.

Lemma cleanup_keeps_factory_witness :
  Samples.running_all !! "factory" = Some (Some (Factory Samples.agent_factory)) /\
  get_status (cleanup_components Samples.running_all).1 !! "factory"
  = Some "active" /\
  (submit_agent Samples.writer (cleanup_components Samples.running_all).1).2
  <> not_initialized.
Proof.
  split; [reflexivity|].
  destruct (cleanup_keeps_factory Samples.running_all Samples.agent_factory
              Samples.writer eq_refl) as (_ & Hstatus & _ & Hsubmit & _).
  split; [exact Hstatus | exact Hsubmit].
Defined.

(** *** Failed setups *)

(** X11: a setup of llm, storage, memory or tool that does not answer
    with a success body has assigned nothing: a slot that was active keeps
    the handle it had. *)
Lemma setup_failure_uncommitted W (r : registry) :
  (forall config, (forall b, (setup_llm W config r).2 <> Body b) ->
                  (setup_llm W config r).1 = r) /\
  (forall config, (forall b, (setup_storage W config r).2 <> Body b) ->
                  (setup_storage W config r).1 = r) /\
  (forall config, (forall b, (setup_memory W config r).2 <> Body b) ->
                  (setup_memory W config r).1 = r) /\
  (forall config, (forall b, (setup_tool_manager W config r).2 <> Body b) ->
                  (setup_tool_manager W config r).1 = r).
Proof.
  repeat split; intros config Hfail.
  - revert Hfail. unfold setup_llm. unfold_M.
    destruct (useCore _ _ _ _ _ _ _); simpl; [|reflexivity].
    intros Hfail. now destruct (Hfail _ eq_refl).
  - revert Hfail. unfold setup_storage. unfold_M.
    destruct (useStorageManager _ _ _ _); simpl; [|reflexivity].
    intros Hfail. now destruct (Hfail _ eq_refl).
  - revert Hfail. unfold setup_memory.
    destruct (r !! "storage") as [[c|]|] eqn:Hs; simpl; try reflexivity.
    unfold_M. rewrite Hs.
    destruct (useMemoryManager _ _ _ _); simpl; [|reflexivity].
    intros Hfail. now destruct (Hfail _ eq_refl).
  - revert Hfail. unfold setup_tool_manager. unfold_M.
    destruct (useToolManager _); simpl; [|reflexivity].
    intros Hfail. now destruct (Hfail _ eq_refl).
Qed.

(** The scheduler is assigned before it is started: when [start()]
    raises, the handler answers 500 and the slot holds the scheduler. *)
Lemma scheduler_assigned_before_start W config (r : registry) s e :
  missing_components r required_components = Return [] ->
  (forall llm memory storage tool,
     fifo_scheduler W llm memory storage tool (log_mode config) = Return s) ->
  sched_start s = Raise e ->
  setup_scheduler W config r
  = (<["scheduler" := Some (Scheduler s)]> r,
     HTTPException 500 (PyStr ("Failed to initialize scheduler: " ++ exc_str e))).
Proof.
  intros Hmissing Hmake Hstart. unfold setup_scheduler. rewrite Hmissing.
  unfold_M. revert Hmissing.
  unfold required_components, missing_components.
  destruct (r !! "llm"); [|intros [=]].
  destruct (r !! "memory"); [|intros [=]].
  destruct (r !! "storage"); [|intros [=]].
  destruct (r !! "tool"); [|intros [=]].
  intros _. rewrite Hmake. simpl. now rewrite Hstart.
Qed.

(** C2 at the failing input: llm, memory, storage and tool are active,
    the scheduler is built and its [start()] raises.  The handler answers
    500, yet the scheduler slot, inactive before, now reads active. *)
Theorem scheduler_start_failure_commits :
  get_status Samples.ready !! "scheduler" = Some "inactive" /\
  setup_scheduler Samples.W_start_fails Samples.scheduler_config Samples.ready
  = (<["scheduler" := Some (Scheduler Samples.fifo_start_fails)]> Samples.ready,
     HTTPException 500 (PyStr "Failed to initialize scheduler: boom")) /\
  get_status (setup_scheduler Samples.W_start_fails Samples.scheduler_config
                Samples.ready).1 !! "scheduler" = Some "active".
Proof. repeat split; reflexivity. Qed.

(** *** Queries *)

(** A query whose type is not llm falls off the end of the handler. *)
Lemma handle_query_unhandled W request (r : registry) :
  query_type request <> q_llm ->
  handle_query W request r = (r, Body PyNone).
Proof.
  intros Hty. unfold handle_query, try_except.
  destruct (query_type request); [congruence | reflexivity..].
Qed.

(** C3 at the failing input: a tool query is answered with a null body,
    not with a 500 error. *)
Theorem tool_query_returns_null :
  handle_query Samples.W Samples.tool_query Samples.ready
  = (Samples.ready, Body PyNone).
Proof. reflexivity. Qed.

(** *** What a request does to the table *)

Lemma missing_components_nil (r : registry) required :
  missing_components r required = Return [] ->
  forall k, k ∈ required -> exists c, r !! k = Some (Some c).
Proof.
  induction required as [|comp rest IH]; simpl.
  - intros _ k Hk. now apply elem_of_nil in Hk.
  - destruct (r !! comp) as [[c|]|] eqn:Hcomp; [| |discriminate];
      destruct (missing_components r rest) as [missing|e]; simpl;
      try discriminate.
    intros [= ->] k [->|Hk]%elem_of_cons; [eauto | now apply IH].
Qed.

Ltac no_factory_success := intros ? [=].

Lemma serve_effect W req (r : registry) :
  effect r req (serve W req r).2 (serve W req r).1.
Proof.
  destruct req as [config|config|config|config|config|config| |config|id| |q];
    simpl.
  - unfold setup_llm. unfold_M.
    destruct (useCore _ _ _ _ _ _ _); simpl;
      [apply effect_llm | apply effect_none; no_factory_success].
  - unfold setup_storage. unfold_M.
    destruct (useStorageManager _ _ _ _); simpl;
      [apply effect_storage | apply effect_none; no_factory_success].
  - unfold setup_memory.
    destruct (r !! "storage") as [[c|]|] eqn:Hs; simpl;
      try (apply effect_none; no_factory_success).
    unfold_M. rewrite Hs.
    destruct (useMemoryManager _ _ _ _); simpl;
      [now apply effect_memory with c | apply effect_none; no_factory_success].
  - unfold setup_tool_manager. unfold_M.
    destruct (useToolManager _); simpl;
      [apply effect_tool | apply effect_none; no_factory_success].
  - unfold setup_agent_factory.
    destruct (missing_components r required_components)
      as [[|m ms]|e] eqn:Hmissing; simpl;
      try (apply effect_none; intros ? _; discriminate).
    destruct (missing_components_nil _ _ Hmissing "llm") as [c Hllm];
      [apply elem_of_cons; now left|].
    unfold_M. destruct (useFactory _ _ _) as [f|e]; simpl;
      [|apply effect_none; intros ? _; discriminate].
    rewrite lookup_insert_ne by discriminate. rewrite Hllm.
    destruct c as [a|m|s|f0]; simpl;
      [destruct (py_print W (model a)) as [[]|e]; simpl|..];
      apply effect_factory.
  - unfold setup_scheduler.
    destruct (missing_components r required_components)
      as [[|m ms]|e] eqn:Hmissing; simpl;
      try (apply effect_none; no_factory_success).
    revert Hmissing. unfold required_components, missing_components. unfold_M.
    destruct (r !! "llm"); [|intros [=]].
    destruct (r !! "memory"); [|intros [=]].
    destruct (r !! "storage"); [|intros [=]].
    destruct (r !! "tool"); [|intros [=]].
    intros _. destruct (fifo_scheduler _ _ _ _ _ _) as [s|e]; simpl;
      [|apply effect_none; no_factory_success].
    destruct (sched_start s) as [[]|e]; apply effect_scheduler.
  - apply effect_none; no_factory_success.
  - unfold submit_agent. destruct (factory_missing r);
      [apply effect_none; no_factory_success|].
    unfold_M. destruct (r !! "factory") as [v|]; simpl;
      [|apply effect_none; no_factory_success].
    destruct (factory_submit v) as [submit|e]; simpl;
      [|apply effect_none; no_factory_success].
    destruct (config_getitem _ _) as [task|e]; simpl;
      [|apply effect_none; no_factory_success].
    destruct (submit _ _); apply effect_none; no_factory_success.
  - unfold get_agent_status. destruct (factory_missing r);
      [apply effect_none; no_factory_success|].
    unfold_M. destruct (r !! "factory") as [v|]; simpl;
      [|apply effect_none; no_factory_success].
    destruct (factory_await v) as [await|e]; simpl;
      [|apply effect_none; no_factory_success].
    destruct (await id) as [[]|e]; apply effect_none; no_factory_success.
  - destruct (cleanup_components_spec r)
      as (done & rest & Hsplit & Hd & Hu & _).
    now apply effect_cleanup with done rest.
  - unfold handle_query. unfold_M.
    destruct (query_type q); simpl;
      try (apply effect_none; no_factory_success).
    destruct (send_request _ _ _); apply effect_none; no_factory_success.
Qed.

(** *** The invariant of the running service *)

Lemma order_memory_before_storage done rest :
  cleanup_order = (done ++ rest)%list -> "storage" ∈ done -> "memory" ∈ done.
Proof.
  unfold cleanup_order. intros Hsplit Hin.
  do 5 (destruct done as [|? done];
        [set_unfold; naive_solver | injection Hsplit as <- Hsplit]).
  all: set_unfold; naive_solver.
Qed.

Lemma in_order_core done rest k :
  cleanup_order = (done ++ rest)%list -> k ∈ done -> k ∈ core_keys.
Proof.
  intros Hsplit Hin.
  assert (k ∈ cleanup_order) as Hk
    by (rewrite Hsplit; apply elem_of_app; now left).
  unfold cleanup_order in Hk. unfold core_keys. set_unfold. naive_solver.
Qed.

Lemma core_keys_cases k :
  k ∈ core_keys ->
  k = "llm" \/ k = "storage" \/ k = "memory" \/ k = "tool" \/ k = "scheduler".
Proof. unfold core_keys. set_unfold. naive_solver. Qed.

Lemma invariant_insert_core (r : registry) k v :
  k ∈ core_keys ->
  invariant r ->
  (<[k := v]> r !! "storage" = Some None ->
   <[k := v]> r !! "memory" = Some None) ->
  (forall c, <[k := v]> r !! "llm" = Some (Some c) -> exists a, c = Llm a) ->
  invariant (<[k := v]> r).
Proof.
  intros Hk [Hcore Hdom Hmem Hllm] Hmem' Hllm'. split; [| |exact Hmem'|exact Hllm'].
  - intros x Hx. apply lookup_insert_is_Some.
    destruct (decide (k = x)); [now left | right; split; auto].
  - rewrite dom_insert. set_solver.
Qed.

Lemma effect_invariant (r : registry) req resp r' :
  invariant r -> effect r req resp r' -> invariant r'.
Proof.
  intros Hinv Heff. pose proof Hinv as [Hcore Hdom Hmem Hllm].
  destruct Heff as [ | ? ? a | ? ? m | ? ? m c Hstorage | ? ? m | ? ? f
                   | ? ? s | ? r' done rest Hsplit Hd Hu ].
  - exact Hinv.
  - apply invariant_insert_core; [unfold core_keys; set_solver | exact Hinv | |].
    + rewrite !lookup_insert_ne by discriminate. exact Hmem.
    + rewrite lookup_insert_eq. intros c [= <-]. eauto.
  - apply invariant_insert_core; [unfold core_keys; set_solver | exact Hinv | |].
    + rewrite lookup_insert_eq. discriminate.
    + rewrite lookup_insert_ne by discriminate. exact Hllm.
  - apply invariant_insert_core; [unfold core_keys; set_solver | exact Hinv | |].
    + rewrite lookup_insert_ne by discriminate. rewrite Hstorage. discriminate.
    + rewrite lookup_insert_ne by discriminate. exact Hllm.
  - apply invariant_insert_core; [unfold core_keys; set_solver | exact Hinv | |].
    + rewrite !lookup_insert_ne by discriminate. exact Hmem.
    + rewrite lookup_insert_ne by discriminate. exact Hllm.
  - split.
    + intros x Hx. apply lookup_insert_is_Some.
      destruct (decide ("factory" = x)); [now left | right; split; auto].
    + rewrite dom_insert. set_solver.
    + rewrite !lookup_insert_ne by discriminate. exact Hmem.
    + rewrite lookup_insert_ne by discriminate. exact Hllm.
  - apply invariant_insert_core; [unfold core_keys; set_solver | exact Hinv | |].
    + rewrite !lookup_insert_ne by discriminate. exact Hmem.
    + rewrite lookup_insert_ne by discriminate. exact Hllm.
  - split.
    + intros x Hx. destruct (decide (x ∈ done)) as [Hin|Hin].
      * destruct (Hd x Hin) as [_ ->]. eauto.
      * rewrite (Hu x Hin). auto.
    + intros x Hx. apply elem_of_dom in Hx.
      destruct (decide (x ∈ done)) as [Hin|Hin].
      * apply elem_of_union. left. eapply in_order_core; eauto.
      * rewrite (Hu x Hin) in Hx. apply Hdom. now apply elem_of_dom.
    + intros Hstorage. destruct (decide ("memory" ∈ done)) as [Hin|Hin];
        [now apply Hd|].
      rewrite (Hu _ Hin). apply Hmem. rewrite <- Hu; [exact Hstorage|].
      intros Hs. apply Hin. eapply order_memory_before_storage; eauto.
    + intros c Hc. destruct (decide ("llm" ∈ done)) as [Hin|Hin].
      * destruct (Hd _ Hin) as [_ Hnone]. congruence.
      * rewrite (Hu _ Hin) in Hc. eauto.
Qed.

Lemma invariant_initial : invariant active_components.
Proof.
  split.
  - intros k Hk.
    destruct (core_keys_cases k Hk) as [->|[->|[->|[->| ->]]]];
      eexists; reflexivity.
  - apply (bool_decide_unpack _). reflexivity.
  - reflexivity.
  - intros c Hc. discriminate Hc.
Qed.

Lemma run_cons W req history (r : registry) :
  run ((W, req) :: history) r
  = ((run history (serve W req r).1).1,
     (serve W req r).2 :: (run history (serve W req r).1).2).
Proof.
  simpl. destruct (serve W req r) as [r1 resp]. simpl.
  now destruct (run history r1).
Qed.

Lemma run_invariant history (r : registry) :
  invariant r -> invariant (run history r).1.
Proof.
  revert r. induction history as [|[W req] history IH]; intros r Hinv;
    [exact Hinv|].
  rewrite run_cons. simpl. apply IH.
  eapply effect_invariant; [exact Hinv | apply serve_effect].
Qed.

Lemma reachable_invariant (r : registry) : reachable r -> invariant r.
Proof. intros [history <-]. apply run_invariant, invariant_initial. Qed.

(** *** Memory over storage *)

Lemma reachable_initial : reachable active_components.
Proof. now exists []. Qed.

(** C7: in every table the service can be in, while the storage slot is
    not active a memory setup is refused with status 400, assigns
    nothing, and the memory slot reads inactive; and a memory setup that
    follows a successful storage setup passes the check and, its manager
    being built, leaves the memory slot active. *)
Theorem memory_requires_storage :
  (forall W config (r : registry),
     reachable r ->
     r !! "storage" = Some None ->
     setup_memory W config r
     = (r, HTTPException 400 (PyStr "Storage manager must be initialized first")) /\
     get_status (setup_memory W config r).1 !! "memory" = Some "inactive") /\
  (forall W1 W2 sconfig mconfig (r : registry) sm mm,
     useStorageManager W1 (root_dir sconfig) (use_vector_db sconfig)
                       (default [] (vector_db_config sconfig)) = Return sm ->
     useMemoryManager W2 (memory_limit mconfig) (eviction_k mconfig)
                      (Some (Manager sm)) = Return mm ->
     let r1 := (setup_storage W1 sconfig r).1 in
     (setup_storage W1 sconfig r).2 = Body (success "Storage manager initialized") /\
     setup_memory W2 mconfig r1
     = (<["memory" := Some (Manager mm)]> r1,
        Body (success "Memory manager initialized")) /\
     get_status (setup_memory W2 mconfig r1).1 !! "memory" = Some "active").
Proof.
  split.
  - intros W config r Hreach Hstorage.
    assert (setup_memory W config r
            = (r, HTTPException 400
                    (PyStr "Storage manager must be initialized first"))) as ->
      by (unfold setup_memory; now rewrite Hstorage).
    split; [reflexivity|]. simpl.
    rewrite get_status_lookup.
    now rewrite (inv_memory _ (reachable_invariant _ Hreach) Hstorage).
  - intros W1 W2 sconfig mconfig r sm mm Hsm Hmm r1.
    assert (setup_storage W1 sconfig r
            = (<["storage" := Some (Manager sm)]> r,
               Body (success "Storage manager initialized"))) as Hsetup
      by (unfold setup_storage; unfold_M; now rewrite Hsm).
    assert (r1 !! "storage" = Some (Some (Manager sm))) as Hstorage
      by (unfold r1; rewrite Hsetup; apply lookup_insert_eq).
    split; [now rewrite Hsetup|].
    assert (setup_memory W2 mconfig r1
            = (<["memory" := Some (Manager mm)]> r1,
               Body (success "Memory manager initialized"))) as ->.
    { unfold setup_memory. rewrite Hstorage. simpl. unfold_M.
      rewrite Hstorage, Hmm. reflexivity. }
    split; [reflexivity|]. simpl.
    now rewrite get_status_lookup, lookup_insert_eq.
Qed.

Lemma memory_requires_storage_witness :
  (reachable active_components /\
   active_components !! "storage" = Some None /\
   setup_memory Samples.W Samples.memory_config active_components
   = (active_components,
      HTTPException 400 (PyStr "Storage manager must be initialized first")))
  /\
  get_status
    (setup_memory Samples.W Samples.memory_config
       (setup_storage Samples.W Samples.storage_config active_components).1).1
  !! "memory" = Some "active".
Proof.
  split.
  - split; [exact reachable_initial|]. split; [reflexivity|].
    exact (proj1 (proj1 memory_requires_storage Samples.W Samples.memory_config
                    active_components reachable_initial eq_refl)).
  - exact (proj2 (proj2 (proj2 memory_requires_storage Samples.W Samples.W
                           Samples.storage_config Samples.memory_config
                           active_components Samples.storage_manager
                           Samples.memory_manager eq_refl eq_refl))).
Defined.

(** *** The factory key *)

Lemma effect_dom_mono (r : registry) req resp r' :
  effect r req resp r' -> dom r ⊆ dom r'.
Proof.
  intros Heff.
  destruct Heff as [ | | | | | | | ? r' done rest Hsplit Hd Hu ];
    try (rewrite dom_insert; set_solver); [reflexivity|].
  intros x Hx. apply elem_of_dom. apply elem_of_dom in Hx.
  destruct (decide (x ∈ done)) as [Hin|Hin].
  - destruct (Hd x Hin) as [_ ->]. eauto.
  - now rewrite (Hu x Hin).
Qed.

Lemma run_dom_mono history (r : registry) : dom r ⊆ dom (run history r).1.
Proof.
  revert r. induction history as [|[W req] history IH]; intros r;
    [reflexivity|].
  rewrite run_cons. simpl. etrans; [|apply IH].
  eapply effect_dom_mono, serve_effect.
Qed.

(** The key appears only through a factory setup that passed the
    prerequisite check and got a factory from its hook. *)
Lemma serve_factory_origin W req (r : registry) :
  "factory" ∈ dom (serve W req r).1 ->
  "factory" ∈ dom r \/
  exists config f,
    req = SetupFactory config /\
    useFactory W (log_mode config) (max_workers config) = Return f /\
    forall detail, (serve W req r).2 <> HTTPException 400 detail.
Proof.
  intros Hin.
  assert ((exists config, req = SetupFactory config) \/
          ~ (exists config, req = SetupFactory config))
    as [[config ->]|Hother]
    by (destruct req; eauto; right; intros [? [=]]).
  - revert Hin. simpl. unfold setup_agent_factory.
    destruct (missing_components r required_components) as [[|m ms]|e];
      simpl; try (now left).
    unfold_M. destruct (useFactory _ _ _) as [f|e] eqn:Hf; simpl; [|now left].
    intros _. right. exists config, f. split; [reflexivity|].
    split; [exact Hf|].
    intros detail.
    destruct (<["factory":=Some (Factory f)]> r !! "llm") as [llm|]; simpl;
      [|discriminate].
    destruct (getattr_model llm) as [model|e]; simpl; [|discriminate].
    destruct (py_print W model) as [[]|e]; discriminate.
  - left. pose proof (serve_effect W req r) as Heff.
    destruct Heff as [ | | | | | | | ? r' done rest Hsplit Hd Hu ];
      try (rewrite dom_insert in Hin; set_solver);
      try exact Hin.
    apply elem_of_dom. apply elem_of_dom in Hin.
    rewrite <- Hu; [exact Hin|]. eapply factory_not_in_order, Hsplit.
Qed.

Lemma run_factory_origin history (r : registry) :
  "factory" ∈ dom (run history r).1 ->
  "factory" ∈ dom r \/
  exists i W config f,
    history !! i = Some (W, SetupFactory config) /\
    useFactory W (log_mode config) (max_workers config) = Return f /\
    forall detail, (run history r).2 !! i <> Some (HTTPException 400 detail).
Proof.
  revert r. induction history as [|[W req] history IH]; intros r;
    [now left|].
  rewrite run_cons. simpl. intros Hin.
  destruct (IH _ Hin) as [Hnow|(i & W' & config & f & Hreq & Hf & Hresp)].
  - destruct (serve_factory_origin _ _ _ Hnow)
      as [Hbefore|(config & f & -> & Hf & Hresp)]; [now left|].
    right. exists 0, W, config, f. do 2 (split; [assumption || reflexivity|]).
    intros detail [= Heq]. exact (Hresp detail Heq).
  - right. now exists (S i), W', config, f.
Qed.

Lemma factory_not_initial : "factory" ∉ dom active_components.
Proof. apply (bool_decide_unpack _). reflexivity. Qed.

Lemma setup_factory_success W config (r : registry) :
  (setup_agent_factory W config r).2 = Body (success "Agent factory initialized") ->
  "factory" ∈ dom (setup_agent_factory W config r).1.
Proof.
  intros Hresp. pose proof (serve_effect W (SetupFactory config) r) as Heff.
  simpl in Heff. rewrite Hresp in Heff.
  remember (setup_agent_factory W config r).1 as r' eqn:Hr'. clear Hr'.
  remember (SetupFactory config) as req eqn:Hreq.
  remember (Body (success "Agent factory initialized")) as resp eqn:Hbody.
  destruct Heff as [? ? Hnot| | | | | | | ]; try discriminate Hreq.
  - subst. now destruct (Hnot config).
  - rewrite dom_insert. set_solver.
Qed.

(** What does hold of the factory key: a fresh table has exactly the keys
    llm, storage, memory, tool and scheduler; a factory key is in the
    status map only if some factory setup among the requests served passed
    its prerequisite check and got a factory from its hook; and once a
    factory setup has answered success, every later status map has exactly
    the five keys and the factory key. *)
Lemma factory_key_facts :
  dom (get_status active_components)
  = {[ "llm"; "storage"; "memory"; "tool"; "scheduler" ]} /\
  (forall history,
     "factory" ∈ dom (get_status (run history active_components).1) ->
     exists i W config f,
       history !! i = Some (W, SetupFactory config) /\
       useFactory W (log_mode config) (max_workers config) = Return f /\
       forall detail,
         (run history active_components).2 !! i
         <> Some (HTTPException 400 detail)) /\
  (forall history W config later,
     let r := (run history active_components).1 in
     (setup_agent_factory W config r).2
     = Body (success "Agent factory initialized") ->
     dom (get_status (run later (setup_agent_factory W config r).1).1)
     = {[ "llm"; "storage"; "memory"; "tool"; "scheduler"; "factory" ]}).
Proof.
  split; [|split].
  - apply (bool_decide_unpack _). reflexivity.
  - intros history Hin. unfold get_status in Hin. rewrite dom_fmap_L in Hin.
    destruct (run_factory_origin _ _ Hin) as [Hinit|Hex]; [|exact Hex].
    now destruct factory_not_initial.
  - intros history W config later r Hresp.
    unfold get_status. rewrite dom_fmap_L.
    set (r1 := (setup_agent_factory W config r).1).
    assert (invariant r1) as Hinv1.
    { eapply effect_invariant;
        [apply run_invariant, invariant_initial
        | apply (serve_effect W (SetupFactory config))]. }
    pose proof (run_invariant later _ Hinv1) as [Hcore Hdom _ _].
    pose proof (run_dom_mono later r1 _ (setup_factory_success _ _ _ Hresp))
      as Hfactory.
    apply set_eq. intros x. split.
    + intros Hx. apply Hdom in Hx. revert Hx. unfold core_keys. set_solver.
    + intros Hx. apply elem_of_union in Hx as [Hx| ->%elem_of_singleton];
        [|exact Hfactory].
      apply elem_of_dom, Hcore. exact Hx.
Qed.

(** C10 at the failing input: on the table that the boot sequence leaves,
    which has no factory key, a factory setup whose print of the llm's
    model raises answers 500; no factory setup has answered success, yet
    the factory is stored, the status map has a factory key that reads
    active, and a submission passes the factory check. *)
Theorem factory_stored_before_print :
  let r := (run Samples.boot active_components).1 in
  let after := setup_agent_factory Samples.W_print_fails
                 Samples.scheduler_config r in
  dom (get_status r) = {[ "llm"; "storage"; "memory"; "tool"; "scheduler" ]} /\
  after
  = (<["factory" := Some (Factory Samples.agent_factory)]> r,
     HTTPException 500 (PyStr "Failed to initialize agent factory: boom")) /\
  get_status after.1 !! "factory" = Some "active" /\
  submit_agent Samples.writer after.1
  = (after.1,
     Body (PyDict [("status", PyStr "success");
                   ("execution_id", PyInt 0);
                   ("message",
                    PyStr "Agent writer-1 submitted for execution")])).
Proof.
  split; [apply (bool_decide_unpack _); reflexivity|].
  repeat split; reflexivity.
Qed.

(** * Further properties of the code *)

(** ** Backend resolution: edge cases of the tables *)

Section ResolutionEdges.

Variable BACKEND_REGISTRY : gmap string pyclass.
Variable MODEL_PREFIX_MAP : list (string * string).
Variable instantiate : pyclass -> model_params -> result BaseLLM.
Variable lower : string -> string.

#[local] Arguments str_truthy : simpl never.

Lemma prefix_has_upper p s :
  startswith s p = true -> has_upper s = false -> has_upper p = false.
Proof.
  unfold startswith. revert s. induction p as [|a p IH]; intros s; simpl;
    [reflexivity|].
  destruct s as [|b s]; simpl; [discriminate|].
  destruct (ascii_dec a b) as [->|_]; [|discriminate].
  intros Hp [Hb Hs]%orb_false_iff. rewrite Hb. simpl. eauto.
Qed.

Lemma find_filter_keep {A} (f g : A -> bool) (l : list A) :
  (forall x, f x = true -> g x = true) ->
  List.find f (List.filter g l) = List.find f l.
Proof.
  intros Hfg. induction l as [|x l IH]; simpl; [reflexivity|].
  destruct (g x) eqn:Hg; simpl.
  - destruct (f x); [reflexivity | exact IH].
  - destruct (f x) eqn:Hf; [|exact IH]. apply Hfg in Hf. congruence.
Qed.

(** X1: the model name is lowercased before it is compared and the
    prefixes are not, so, [lower] never giving an ASCII upper-case letter,
    an entry of the prefix table whose key has one is dead: dropping all
    such entries changes nothing in what [init] returns or raises. *)
Theorem uppercase_prefixes_dead name gpu dev tok log hint ctx key :
  (forall s, has_upper (lower s) = false) ->
  init BACKEND_REGISTRY MODEL_PREFIX_MAP instantiate lower
       name gpu dev tok log hint ctx key
  = init BACKEND_REGISTRY
         (List.filter (fun kv => negb (has_upper kv.1)) MODEL_PREFIX_MAP)
         instantiate lower name gpu dev tok log hint ctx key.
Proof.
  intros Hlower.
  assert (forall p, startswith (lower name) p = true -> has_upper p = false)
    as Hprefix by (intros p Hp; exact (prefix_has_upper _ _ Hp (Hlower name))).
  unfold init.
  destruct (str_truthy hint && in_registry BACKEND_REGISTRY hint);
    [reflexivity|].
  unfold model_prefix_of. rewrite !find_key_item.
  rewrite find_filter_keep
    by (intros kv Hkv; now rewrite (Hprefix _ Hkv)).
  destruct (List.find _ MODEL_PREFIX_MAP) as [kv|] eqn:Hfind; simpl;
    [|reflexivity].
  destruct (str_truthy (Some kv.1)); [|reflexivity].
  assert (has_upper kv.1 = false) as Hlow.
  { apply List.find_some in Hfind as [_ Hkv]. exact (Hprefix _ Hkv). }
  unfold prefix_getitem. rewrite find_filter_keep; [reflexivity|].
  intros kv' Heq. apply String.eqb_eq in Heq. now rewrite Heq, Hlow.
Qed.

(** [init] raises [KeyError] when the selected prefix maps to an id that
    the registry does not have; it falls back to [HfNativeLLM] when the
    selected prefix is the empty string. *)
Lemma init_selected name gpu dev tok log hint ctx key kv :
  from_option (fun h => BACKEND_REGISTRY !! h = None) True hint ->
  List.find (fun kv => startswith (lower name) kv.1) MODEL_PREFIX_MAP = Some kv ->
  init BACKEND_REGISTRY MODEL_PREFIX_MAP instantiate lower
       name gpu dev tok log hint ctx key
  = let params := {| mp_llm_name := name; mp_log_mode := log;
                     mp_use_context_manager := ctx; mp_api_key := key |} in
    if str_truthy (Some kv.1) then
      model_class ← registry_getitem BACKEND_REGISTRY kv.2;
      build instantiate model_class params
    else build instantiate HfNativeLLM params.
Proof.
  intros Hhint Hfind. unfold init.
  assert (str_truthy hint && in_registry BACKEND_REGISTRY hint = false) as ->.
  { destruct hint as [h|]; simpl in *; [|reflexivity].
    rewrite bool_decide_eq_false_2; [apply andb_false_r|].
    rewrite Hhint. now intros [? ?]. }
  unfold model_prefix_of. rewrite find_key_item, Hfind. simpl.
  destruct (str_truthy (Some kv.1)); [|reflexivity].
  now rewrite (prefix_getitem_first _ _ _ Hfind).
Qed.

(** X2: with no usable hint, when the first prefix the lowercased name
    starts with maps to a backend id that is not in the registry, [init]
    raises [KeyError] on that id and builds no model.  [lower] is any
    function: the builtin is one. *)
Theorem dangling_prefix_raises name gpu dev tok log hint ctx key kv :
  from_option (fun h => BACKEND_REGISTRY !! h = None) True hint ->
  List.find (fun kv => startswith (lower name) kv.1) MODEL_PREFIX_MAP = Some kv ->
  kv.1 <> "" ->
  BACKEND_REGISTRY !! kv.2 = None ->
  init BACKEND_REGISTRY MODEL_PREFIX_MAP instantiate lower
       name gpu dev tok log hint ctx key
  = Raise (KeyError kv.2).
Proof.
  intros Hhint Hfind Hne Hreg.
  rewrite (init_selected _ _ _ _ _ _ _ _ _ Hhint Hfind). simpl.
  rewrite (str_truthy_Some _ Hne). unfold registry_getitem. now rewrite Hreg.
Qed.

(** X3: with no usable hint, when the empty string is a key of the prefix
    table and no earlier key matches, the empty prefix is selected, tests
    false, and the model is built by the constructor of [HfNativeLLM]:
    the id it maps to and every later entry of the table are ignored.
    [lower] is any function: the builtin is one. *)
Theorem empty_prefix_defaults name gpu dev tok log hint ctx key kv :
  from_option (fun h => BACKEND_REGISTRY !! h = None) True hint ->
  List.find (fun kv => startswith (lower name) kv.1) MODEL_PREFIX_MAP = Some kv ->
  kv.1 = "" ->
  init BACKEND_REGISTRY MODEL_PREFIX_MAP instantiate lower
       name gpu dev tok log hint ctx key
  = match instantiate HfNativeLLM
            {| mp_llm_name := name; mp_log_mode := log;
               mp_use_context_manager := ctx; mp_api_key := key |} with
    | Return m => Return {| model := m |}
    | Raise e => Raise e
    end.
Proof.
  intros Hhint Hfind Hempty.
  rewrite (init_selected _ _ _ _ _ _ _ _ _ Hhint Hfind). simpl.
  now rewrite Hempty.
Qed.

End ResolutionEdges.

Lemma ascii_lower_not_upper c : is_upper (ascii_lower c) = false.
Proof. destruct c as [[] [] [] [] [] [] [] []]; reflexivity. Qed.

Lemma lower_ascii_not_upper s : has_upper (lower_ascii s) = false.
Proof.
  induction s as [|c s IH]; simpl; [reflexivity|].
  now rewrite ascii_lower_not_upper, IH.
Qed.

(** With the key GPT ahead of the key gpt, the name GPT-4 is served by
    the class of gpt. *)
Lemma uppercase_prefixes_dead_witness :
  init Samples.BACKEND_REGISTRY Samples.MIXED_CASE_PREFIX_MAP
       Samples.instantiate lower_ascii
       "GPT-4" None None 256 "console" None false None
  = init Samples.BACKEND_REGISTRY [("gpt", "openai")]
         Samples.instantiate lower_ascii
         "GPT-4" None None 256 "console" None false None.
Proof.
  exact (uppercase_prefixes_dead Samples.BACKEND_REGISTRY
           Samples.MIXED_CASE_PREFIX_MAP Samples.instantiate lower_ascii
           "GPT-4" None None 256 "console" None false None
           lower_ascii_not_upper).
Defined.

Lemma dangling_prefix_raises_witness :
  Samples.BACKEND_REGISTRY !! "azure" = None /\
  init Samples.BACKEND_REGISTRY Samples.DANGLING_PREFIX_MAP Samples.instantiate
       lower_ascii "GPT-4" None None 256 "console" None false None
  = Raise {| exc_type := "KeyError"; exc_str := "'azure'";
             exc_traceback := exc_traceback (KeyError "azure");
             exc_debug_logs := PyNone |}.
Proof.
  split; [reflexivity|].
  apply (dangling_prefix_raises Samples.BACKEND_REGISTRY
           Samples.DANGLING_PREFIX_MAP Samples.instantiate lower_ascii
           "GPT-4" None None 256 "console" None false None ("gpt", "azure"));
    [exact I | reflexivity | discriminate | reflexivity].
Defined.

Lemma empty_prefix_defaults_witness :
  Samples.BACKEND_REGISTRY !! "openai" = Some "GPTLLM" /\
  init Samples.BACKEND_REGISTRY Samples.EMPTY_PREFIX_MAP Samples.instantiate
       lower_ascii "gpt-4" None None 256 "console" (Some "default") false None
  = Return {| model :=
                {| llm_class := "HfNativeLLM";
                   llm_params :=
                     {| mp_llm_name := "gpt-4"; mp_log_mode := "console";
                        mp_use_context_manager := false;
                        mp_api_key := None |} |} |}.
Proof.
  split; [reflexivity|].
  apply (empty_prefix_defaults Samples.BACKEND_REGISTRY
           Samples.EMPTY_PREFIX_MAP Samples.instantiate lower_ascii
           "gpt-4" None None 256 "console" (Some "default") false None
           ("", "openai")); reflexivity.
Defined.

(** ** Handlers that only read the table *)

(** X4: submitting an agent, polling an execution and routing a query
    never assign to the table, whatever they answer. *)
Theorem read_only_handlers W (r : registry) :
  (forall config, (submit_agent config r).1 = r) /\
  (forall execution_id, (get_agent_status execution_id r).1 = r) /\
  (forall request, (handle_query W request r).1 = r).
Proof.
  split; [|split].
  - intros config. unfold submit_agent.
    destruct (factory_missing r); [reflexivity|]. unfold_M.
    destruct (r !! "factory") as [v|]; simpl; [|reflexivity].
    destruct (factory_submit v) as [submit|e]; simpl; [|reflexivity].
    destruct (config_getitem _ _) as [task|e]; simpl; [|reflexivity].
    now destruct (submit _ _).
  - intros id. unfold get_agent_status.
    destruct (factory_missing r); [reflexivity|]. unfold_M.
    destruct (r !! "factory") as [v|]; simpl; [|reflexivity].
    destruct (factory_await v) as [await|e]; simpl; [|reflexivity].
    now destruct (await id) as [[]|e].
  - intros q. unfold handle_query. unfold_M.
    destruct (query_type q); simpl; try reflexivity.
    now destruct (send_request _ _ _).
Qed.

(** X5: routing never looks at the table.  An llm query is forwarded to
    the syscall sender and answered with what it returns, or with status
    500 and the message of what it raises, whether or not an llm core, or
    anything at all, has been set up. *)
Theorem llm_query_forwarded W request (r : registry) :
  query_type request = q_llm ->
  handle_query W request r
  = (r, match send_request W (agent_name request)
                {| messages := messages (query_data request);
                   tools := tools (query_data request);
                   action_type := action_type (query_data request);
                   message_return_type :=
                     message_return_type (query_data request) |} with
        | Return response => Body response
        | Raise e => HTTPException 500 (PyStr (exc_str e))
        end).
Proof.
  intros Hty. unfold handle_query. unfold_M. rewrite Hty.
  now destruct (send_request _ _ _).
Qed.

Lemma llm_query_forwarded_witness :
  get_status active_components !! "llm" = Some "inactive" /\
  handle_query Samples.W Samples.llm_query active_components
  = (active_components, Body (PyStr "response")).
Proof.
  split; [reflexivity|].
  apply (llm_query_forwarded Samples.W Samples.llm_query active_components).
  reflexivity.
Defined.

(** ** Agents without a factory, and without a task *)

Lemma factory_absent_refused (r : registry) config execution_id :
  r !! "factory" = None ->
  submit_agent config r
  = (r, HTTPException 400 (PyStr "Agent factory not initialized")) /\
  get_agent_status execution_id r
  = (r, HTTPException 400 (PyStr "Agent factory not initialized")).
Proof.
  intros Hnone. unfold submit_agent, get_agent_status, factory_missing.
  now rewrite Hnone.
Qed.

(** X6: as long as every factory setup served so far was refused with
    status 400 or had its hook raise, whatever else the service has
    served, a submission and a poll are both refused with status 400 and
    the detail that the factory is not initialized. *)
Theorem no_factory_refused history config execution_id :
  (forall i W c,
     history !! i = Some (W, SetupFactory c) ->
     (exists detail,
        (run history active_components).2 !! i
        = Some (HTTPException 400 detail)) \/
     (exists e, useFactory W (log_mode c) (max_workers c) = Raise e)) ->
  let r := (run history active_components).1 in
  submit_agent config r
  = (r, HTTPException 400 (PyStr "Agent factory not initialized")) /\
  get_agent_status execution_id r
  = (r, HTTPException 400 (PyStr "Agent factory not initialized")).
Proof.
  intros Hnever r. apply factory_absent_refused.
  apply not_elem_of_dom. intros Hin.
  destruct (run_factory_origin _ _ Hin)
    as [Hinit|(i & W & c & f & Hreq & Hf & Hresp)].
  - now destruct factory_not_initial.
  - destruct (Hnever i W c Hreq) as [[detail Hd]|[e He]].
    + exact (Hresp detail Hd).
    + congruence.
Qed.

(** A factory setup refused on the fresh table, the boot sequence, and a
    factory setup whose hook raises. *)
Lemma no_factory_refused_witness :
  (run Samples.boot_without_factory active_components).2 !! 0
  = Some (HTTPException 400
            (PyStr "Missing required components: llm, memory, storage, tool")) /\
  (run Samples.boot_without_factory active_components).2 !! 5
  = Some (HTTPException 500 (PyStr "Failed to initialize agent factory: boom")) /\
  submit_agent Samples.writer
    (run Samples.boot_without_factory active_components).1
  = ((run Samples.boot_without_factory active_components).1,
     HTTPException 400 (PyStr "Agent factory not initialized")) /\
  get_agent_status 0 (run Samples.boot_without_factory active_components).1
  = ((run Samples.boot_without_factory active_components).1,
     HTTPException 400 (PyStr "Agent factory not initialized")).
Proof.
  split; [reflexivity|]. split; [reflexivity|].
  apply (no_factory_refused Samples.boot_without_factory Samples.writer 0).
  intros i W c Hreq.
  destruct i as [|i]; [left; eexists; reflexivity|].
  do 4 (destruct i as [|i]; [discriminate Hreq|]).
  destruct i as [|i]; [|discriminate Hreq].
  injection Hreq as <- <-. right. eexists. reflexivity.
Defined.

(** X7: with an active factory, a submission whose [agent_config] has no
    ["task"] key is answered with status 500 and a [KeyError] on that key,
    whatever the factory's submit handle would do. *)
Theorem submit_without_task (r : registry) f config :
  r !! "factory" = Some (Some (Factory f)) ->
  agent_config config !! "task" = None ->
  submit_agent config r
  = (r, HTTPException 500
          (PyDict [("error", PyStr "Failed to submit agent");
                   ("message", PyStr "'task'");
                   ("traceback", PyStr (exc_traceback (KeyError "task")))])).
Proof.
  intros Hfac Htask. unfold submit_agent, factory_missing. rewrite Hfac. simpl.
  unfold_M. rewrite Hfac. simpl. unfold config_getitem. now rewrite Htask.
Qed.

Lemma submit_without_task_witness :
  (submit_agent Samples.no_task Samples.running_all).2
  = HTTPException 500
      (PyDict [("error", PyStr "Failed to submit agent");
               ("message", PyStr "'task'");
               ("traceback", PyStr (exc_traceback (KeyError "task")))]).
Proof.
  rewrite (submit_without_task Samples.running_all Samples.agent_factory
             Samples.no_task eq_refl eq_refl).
  reflexivity.
Defined.

(** ** Prerequisites of the scheduler and of the factory *)

Lemma missing_components_filter (r : registry) required :
  (forall k, k ∈ required -> is_Some (r !! k)) ->
  missing_components r required
  = Return (List.filter (fun comp => negb (truthy (default None (r !! comp))))
                        required).
Proof.
  induction required as [|comp rest IH]; intros Hkeys; simpl; [reflexivity|].
  destruct (Hkeys comp) as [v Hv]; [apply elem_of_cons; now left|].
  rewrite Hv, IH by (intros k Hk; apply Hkeys, elem_of_cons; now right).
  simpl. now destruct (truthy v).
Qed.

(** X8: when the keys llm, memory, storage and tool are in the table and
    one of them is inactive, the scheduler setup and the factory setup
    both answer 400 with one and the same detail, which lists exactly the
    inactive ones in the order llm, memory, storage, tool; neither
    assigns anything. *)
Theorem prerequisites_listed W config (r : registry) :
  (forall k, k ∈ required_components -> is_Some (r !! k)) ->
  inactive_required r <> [] ->
  setup_scheduler W config r
  = (r, HTTPException 400
          (PyStr ("Missing required components: "
                  ++ String.concat ", " (inactive_required r)))) /\
  setup_agent_factory W config r
  = (r, HTTPException 400
          (PyStr ("Missing required components: "
                  ++ String.concat ", " (inactive_required r)))).
Proof.
  intros Hkeys Hsome. unfold setup_scheduler, setup_agent_factory.
  rewrite (missing_components_filter _ _ Hkeys).
  fold (inactive_required r).
  destruct (inactive_required r); [congruence | split; reflexivity].
Qed.

Lemma prerequisites_listed_witness :
  setup_scheduler Samples.W Samples.scheduler_config active_components
  = (active_components,
     HTTPException 400
       (PyStr "Missing required components: llm, memory, storage, tool")) /\
  setup_agent_factory Samples.W Samples.scheduler_config active_components
  = (active_components,
     HTTPException 400
       (PyStr "Missing required components: llm, memory, storage, tool")).
Proof.
  apply (prerequisites_listed Samples.W Samples.scheduler_config
           active_components).
  - intros k Hk. unfold required_components in Hk.
    apply elem_of_cons in Hk as [->|Hk]; [now eexists|].
    apply elem_of_cons in Hk as [->|Hk]; [now eexists|].
    apply elem_of_cons in Hk as [->|Hk]; [now eexists|].
    apply elem_of_cons in Hk as [->|Hk]; [now eexists|].
    now apply elem_of_nil in Hk.
  - discriminate.
Defined.

Lemma prerequisites_met (r : registry) llm memory storage tool :
  r !! "llm" = Some (Some llm) ->
  r !! "memory" = Some (Some memory) ->
  r !! "storage" = Some (Some storage) ->
  r !! "tool" = Some (Some tool) ->
  missing_components r required_components = Return [].
Proof.
  intros Hl Hm Hs Ht. unfold required_components, missing_components.
  now rewrite Hl, Hm, Hs, Ht.
Qed.

(** X9: with llm, memory, storage and tool active, the scheduler setup
    hands exactly those four handles to the scheduler's constructor.  When
    the constructor raises, the answer is 500 with its message and the
    table is unchanged; when it returns a scheduler whose [start()]
    returns, the scheduler slot holds it and the answer is success. *)
Theorem setup_scheduler_outcomes W config (r : registry) llm memory storage tool :
  r !! "llm" = Some (Some llm) ->
  r !! "memory" = Some (Some memory) ->
  r !! "storage" = Some (Some storage) ->
  r !! "tool" = Some (Some tool) ->
  match fifo_scheduler W (Some llm) (Some memory) (Some storage) (Some tool)
                       (log_mode config) with
  | Raise e =>
    setup_scheduler W config r
    = (r, HTTPException 500
            (PyStr ("Failed to initialize scheduler: " ++ exc_str e)))
  | Return s =>
    sched_start s = Return tt ->
    setup_scheduler W config r
    = (<["scheduler" := Some (Scheduler s)]> r,
       Body (success "Scheduler initialized"))
  end.
Proof.
  intros Hl Hm Hs Ht. unfold setup_scheduler.
  rewrite (prerequisites_met _ _ _ _ _ Hl Hm Hs Ht). unfold_M.
  rewrite Hl, Hm, Hs, Ht.
  destruct (fifo_scheduler _ _ _ _ _ _) as [s|e]; simpl; [|reflexivity].
  now intros ->.
Qed.

Lemma setup_scheduler_outcomes_witness :
  setup_scheduler Samples.W Samples.scheduler_config Samples.ready
  = (<["scheduler" := Some (Scheduler Samples.fifo)]> Samples.ready,
     Body (success "Scheduler initialized")) /\
  setup_scheduler Samples.W_fails Samples.scheduler_config Samples.ready
  = (Samples.ready,
     HTTPException 500 (PyStr "Failed to initialize scheduler: boom")).
Proof.
  split.
  - exact (setup_scheduler_outcomes Samples.W Samples.scheduler_config
             Samples.ready (Llm Samples.adapter)
             (Manager Samples.memory_manager)
             (Manager Samples.storage_manager)
             (Manager Samples.tool_manager)
             eq_refl eq_refl eq_refl eq_refl eq_refl).
  - exact (setup_scheduler_outcomes Samples.W_fails Samples.scheduler_config
             Samples.ready (Llm Samples.adapter)
             (Manager Samples.memory_manager)
             (Manager Samples.storage_manager)
             (Manager Samples.tool_manager)
             eq_refl eq_refl eq_refl eq_refl).
Defined.

(** X10: the factory setup needs llm, memory, storage and tool but not
    the scheduler.  When the hook raises, the answer is 500 with its
    message and the table is unchanged.  When it returns a factory, the
    factory is stored under the key factory, which then reads active, and
    only then is the llm's model printed: the answer is success when the
    print returns, and 500 with the message of what it raised when it
    raises, the factory staying stored. *)
Theorem setup_agent_factory_outcomes W config (r : registry) a memory storage tool :
  r !! "llm" = Some (Some (Llm a)) ->
  r !! "memory" = Some (Some memory) ->
  r !! "storage" = Some (Some storage) ->
  r !! "tool" = Some (Some tool) ->
  match useFactory W (log_mode config) (max_workers config) with
  | Raise e =>
    setup_agent_factory W config r
    = (r, HTTPException 500
            (PyStr ("Failed to initialize agent factory: " ++ exc_str e)))
  | Return f =>
    setup_agent_factory W config r
    = (<["factory" := Some (Factory f)]> r,
       match py_print W (model a) with
       | Return _ => Body (PyDict [("status", PyStr "success");
                                   ("message", PyStr "Agent factory initialized")])
       | Raise e =>
         HTTPException 500
           (PyStr ("Failed to initialize agent factory: " ++ exc_str e))
       end) /\
    get_status (setup_agent_factory W config r).1 !! "factory" = Some "active"
  end.
Proof.
  intros Hl Hm Hs Ht. unfold setup_agent_factory.
  rewrite (prerequisites_met _ _ _ _ _ Hl Hm Hs Ht). unfold_M.
  destruct (useFactory _ _ _) as [f|e]; simpl; [|reflexivity].
  rewrite lookup_insert_ne by discriminate. rewrite Hl. simpl.
  destruct (py_print W (model a)) as [[]|e]; simpl;
    (split; [reflexivity|]); now rewrite get_status_lookup, lookup_insert_eq.
Qed.

Lemma setup_agent_factory_outcomes_witness :
  get_status Samples.ready !! "scheduler" = Some "inactive" /\
  setup_agent_factory Samples.W Samples.scheduler_config Samples.ready
  = (<["factory" := Some (Factory Samples.agent_factory)]> Samples.ready,
     Body (PyDict [("status", PyStr "success");
                   ("message", PyStr "Agent factory initialized")])) /\
  setup_agent_factory Samples.W_print_fails Samples.scheduler_config
    Samples.ready
  = (<["factory" := Some (Factory Samples.agent_factory)]> Samples.ready,
     HTTPException 500 (PyStr "Failed to initialize agent factory: boom")) /\
  setup_agent_factory Samples.W_fails Samples.scheduler_config Samples.ready
  = (Samples.ready,
     HTTPException 500 (PyStr "Failed to initialize agent factory: boom")).
Proof.
  split; [reflexivity|]. split; [|split].
  - exact (proj1 (setup_agent_factory_outcomes Samples.W Samples.scheduler_config
                    Samples.ready Samples.adapter
                    (Manager Samples.memory_manager)
                    (Manager Samples.storage_manager)
                    (Manager Samples.tool_manager)
                    eq_refl eq_refl eq_refl eq_refl)).
  - exact (proj1 (setup_agent_factory_outcomes Samples.W_print_fails
                    Samples.scheduler_config
                    Samples.ready Samples.adapter
                    (Manager Samples.memory_manager)
                    (Manager Samples.storage_manager)
                    (Manager Samples.tool_manager)
                    eq_refl eq_refl eq_refl eq_refl)).
  - exact (setup_agent_factory_outcomes Samples.W_fails
             Samples.scheduler_config
             Samples.ready Samples.adapter
             (Manager Samples.memory_manager)
             (Manager Samples.storage_manager)
             (Manager Samples.tool_manager)
             eq_refl eq_refl eq_refl eq_refl).
Defined.

(** ** Setups, one after the other *)

Lemma setup_failure_uncommitted_witness :
  (setup_llm Samples.W_fails Samples.llm_config Samples.ready).1 = Samples.ready /\
  (setup_memory Samples.W Samples.memory_config active_components).1
  = active_components.
Proof.
  split.
  - apply (proj1 (setup_failure_uncommitted Samples.W_fails Samples.ready)
             Samples.llm_config).
    intros b. discriminate.
  - apply (proj1 (proj2 (proj2 (setup_failure_uncommitted Samples.W
                                  active_components)))
             Samples.memory_config).
    intros b. discriminate.
Defined.

(** X12: a later successful setup of llm, storage or tool replaces
    whatever an earlier setup of the same slot left there: the table and
    the answer are as if the earlier one had never been served, and the
    earlier handle is dropped without any release call on it. *)
Theorem setup_replaces W1 W2 (r : registry) :
  (forall c1 c2 b,
     (setup_llm W2 c2 (setup_llm W1 c1 r).1).2 = Body b ->
     setup_llm W2 c2 (setup_llm W1 c1 r).1 = setup_llm W2 c2 r) /\
  (forall c1 c2 b,
     (setup_storage W2 c2 (setup_storage W1 c1 r).1).2 = Body b ->
     setup_storage W2 c2 (setup_storage W1 c1 r).1 = setup_storage W2 c2 r) /\
  (forall c1 c2 b,
     (setup_tool_manager W2 c2 (setup_tool_manager W1 c1 r).1).2 = Body b ->
     setup_tool_manager W2 c2 (setup_tool_manager W1 c1 r).1
     = setup_tool_manager W2 c2 r).
Proof.
  split; [|split]; intros c1 c2 b.
  - unfold setup_llm. unfold_M.
    destruct (useCore W1 _ _ _ _ _ _); simpl; [|reflexivity].
    destruct (useCore W2 _ _ _ _ _ _); simpl; [|discriminate].
    now rewrite insert_insert_eq.
  - unfold setup_storage. unfold_M.
    destruct (useStorageManager W1 _ _ _); simpl; [|reflexivity].
    destruct (useStorageManager W2 _ _ _); simpl; [|discriminate].
    now rewrite insert_insert_eq.
  - unfold setup_tool_manager. unfold_M.
    destruct (useToolManager W1); simpl; [|reflexivity].
    destruct (useToolManager W2); simpl; [|discriminate].
    now rewrite insert_insert_eq.
Qed.

Lemma setup_replaces_witness :
  setup_tool_manager Samples.W Samples.tool_config
    (setup_tool_manager Samples.W Samples.tool_config
       Samples.tool_release_fails).1
  = setup_tool_manager Samples.W Samples.tool_config Samples.tool_release_fails.
Proof.
  apply (proj2 (proj2 (setup_replaces Samples.W Samples.W
                         Samples.tool_release_fails))
           Samples.tool_config Samples.tool_config
           (success "Tool manager initialized")).
  reflexivity.
Defined.

(** X13: the setups of llm, storage and tool do not depend on one
    another: served in either order they give the same answers and leave
    the same table. *)
Theorem independent_setups_commute Wl Ws Wt cl cs ct (r : registry) :
  (setup_storage Ws cs (setup_llm Wl cl r).1).1
  = (setup_llm Wl cl (setup_storage Ws cs r).1).1 /\
  (setup_tool_manager Wt ct (setup_llm Wl cl r).1).1
  = (setup_llm Wl cl (setup_tool_manager Wt ct r).1).1 /\
  (setup_tool_manager Wt ct (setup_storage Ws cs r).1).1
  = (setup_storage Ws cs (setup_tool_manager Wt ct r).1).1 /\
  (forall r' : registry,
     (setup_llm Wl cl r').2 = (setup_llm Wl cl r).2 /\
     (setup_storage Ws cs r').2 = (setup_storage Ws cs r).2 /\
     (setup_tool_manager Wt ct r').2 = (setup_tool_manager Wt ct r).2).
Proof.
  unfold setup_llm, setup_storage, setup_tool_manager. unfold_M.
  destruct (useCore Wl _ _ _ _ _ _), (useStorageManager Ws _ _ _),
    (useToolManager Wt); simpl;
    repeat split; try reflexivity; now apply insert_insert_ne.
Qed.

(** ** Cleanup on a stopped service *)

(** X14: the scheduler is stopped without first testing its slot.  When
    the slot holds [None], as on a fresh service, cleanup answers 500 with
    the attribute error of [None.stop] and releases nothing: the table is
    unchanged, so every active component stays active. *)
Theorem cleanup_without_scheduler (r : registry) :
  r !! "scheduler" = Some None ->
  cleanup_components r
  = (r, HTTPException 500
          (PyStr "Failed to cleanup components: 'NoneType' object has no attribute 'stop'")).
Proof.
  intros Hsched. unfold cleanup_components, stop_scheduler. unfold_M.
  now rewrite Hsched.
Qed.

Lemma cleanup_without_scheduler_witness :
  get_status Samples.ready !! "llm" = Some "active" /\
  cleanup_components Samples.ready
  = (Samples.ready,
     HTTPException 500
       (PyStr "Failed to cleanup components: 'NoneType' object has no attribute 'stop'")).
Proof.
  split; [reflexivity|].
  apply (cleanup_without_scheduler Samples.ready). reflexivity.
Defined.

(** X15: after a cleanup that answered success the five slots of its
    order hold [None]; the service is back where a fresh one is: a second
    cleanup answers 500 and changes nothing, a memory setup is refused for
    want of storage, and a scheduler setup is refused naming llm, memory,
    storage and tool. *)
Theorem after_successful_cleanup W (r : registry) b :
  (cleanup_components r).2 = Body b ->
  let r' := (cleanup_components r).1 in
  (forall k, k ∈ cleanup_order -> r' !! k = Some None) /\
  (cleanup_components r').1 = r' /\
  (exists detail, (cleanup_components r').2 = HTTPException 500 detail) /\
  (forall config,
     setup_memory W config r'
     = (r', HTTPException 400 (PyStr "Storage manager must be initialized first"))) /\
  (forall config,
     setup_scheduler W config r'
     = (r', HTTPException 400
              (PyStr "Missing required components: llm, memory, storage, tool"))).
Proof.
  intros Hbody r'.
  assert (forall k, k ∈ cleanup_order -> r' !! k = Some None) as Hnone.
  { destruct (cleanup_components_spec r) as (done & rest & Hsplit & Hd & _ & Hr).
    destruct rest as [|failing rest].
    - rewrite app_nil_r in Hsplit. subst done. intros k Hk. now apply Hd.
    - destruct Hr as (e & _ & Hresp). rewrite Hresp in Hbody. discriminate. }
  assert (r' !! "scheduler" = Some None) as Hsched
    by (apply Hnone, (bool_decide_unpack _); reflexivity).
  assert (r' !! "llm" = Some None) as Hllm
    by (apply Hnone, (bool_decide_unpack _); reflexivity).
  assert (r' !! "memory" = Some None) as Hmemory
    by (apply Hnone, (bool_decide_unpack _); reflexivity).
  assert (r' !! "storage" = Some None) as Hstorage
    by (apply Hnone, (bool_decide_unpack _); reflexivity).
  assert (r' !! "tool" = Some None) as Htool
    by (apply Hnone, (bool_decide_unpack _); reflexivity).
  split; [exact Hnone|].
  assert (cleanup_components r'
          = (r', HTTPException 500
                   (PyStr "Failed to cleanup components: 'NoneType' object has no attribute 'stop'")))
    as Hagain
    by (unfold cleanup_components, stop_scheduler; unfold_M; now rewrite Hsched).
  split; [now rewrite Hagain|]. split; [rewrite Hagain; eauto|]. split.
  - intros config. unfold setup_memory. now rewrite Hstorage.
  - intros config.
    unfold setup_scheduler, required_components, missing_components.
    now rewrite Hllm, Hmemory, Hstorage, Htool.
Qed.

Lemma after_successful_cleanup_witness :
  (cleanup_components Samples.running_all).2
  = Body (success "All components cleaned up") /\
  (cleanup_components (cleanup_components Samples.running_all).1).1
  = (cleanup_components Samples.running_all).1 /\
  setup_memory Samples.W Samples.memory_config
    (cleanup_components Samples.running_all).1
  = ((cleanup_components Samples.running_all).1,
     HTTPException 400 (PyStr "Storage manager must be initialized first")).
Proof.
  split; [reflexivity|].
  destruct (after_successful_cleanup Samples.W Samples.running_all
              (success "All components cleaned up") eq_refl)
    as (_ & Hsame & _ & Hmemory & _).
  split; [exact Hsame | exact (Hmemory Samples.memory_config)].
Defined.

(** ** What is active together *)

Lemma status_active (r : registry) k :
  get_status r !! k = Some "active" <-> active r k.
Proof.
  rewrite get_status_lookup. unfold active.
  destruct (r !! k) as [[c|]|]; simpl; split;
    try discriminate; try (intros [? [=]]); eauto.
Qed.

Lemma order_starts_with_scheduler done rest :
  cleanup_order = (done ++ rest)%list -> "scheduler" ∉ done -> done = [].
Proof.
  unfold cleanup_order. destruct done as [|k done]; [reflexivity|].
  intros [= <- _] Hnot. destruct Hnot. apply elem_of_cons. now left.
Qed.

Lemma active_insert (r : registry) k k' c :
  active r k' -> active (<[k := Some c]> r) k'.
Proof.
  intros [c' Hc']. unfold active. destruct (decide (k = k')) as [->|Hne].
  - rewrite lookup_insert_eq. eauto.
  - rewrite lookup_insert_ne by exact Hne. eauto.
Qed.

Lemma scheduler_dependencies_insert (r : registry) k c :
  k <> "scheduler" ->
  scheduler_dependencies r ->
  scheduler_dependencies (<[k := Some c]> r).
Proof.
  intros Hne Hdeps [s Hs] k' Hk'. rewrite lookup_insert_ne in Hs by exact Hne.
  apply active_insert, Hdeps; [now exists s | exact Hk'].
Qed.

Lemma serve_scheduler_dependencies W req (r : registry) :
  scheduler_dependencies r -> scheduler_dependencies (serve W req r).1.
Proof.
  intros Hdeps.
  assert ((exists config, req = SetupScheduler config) \/
          ~ (exists config, req = SetupScheduler config))
    as [[config ->]|Hother]
    by (destruct req; eauto; right; intros [? [=]]).
  - simpl. unfold setup_scheduler.
    destruct (missing_components r required_components)
      as [[|m ms]|e] eqn:Hmissing; simpl; try exact Hdeps.
    pose proof (missing_components_nil _ _ Hmissing) as Hall.
    pose proof (serve_effect W (SetupScheduler config) r) as Heff.
    simpl in Heff. unfold setup_scheduler in Heff. rewrite Hmissing in Heff.
    remember (SetupScheduler config) as req eqn:Hreq.
    destruct Heff; try discriminate Hreq; [exact Hdeps|].
    intros _ k Hk. apply active_insert, Hall, Hk.
  - pose proof (serve_effect W req r) as Heff.
    destruct Heff as [ | | | | | | config resp s
                     | ? r' done rest Hsplit Hd Hu ];
      try (apply scheduler_dependencies_insert; [discriminate | exact Hdeps]).
    + exact Hdeps.
    + destruct Hother. eauto.
    + intros [s Hs] k Hk.
      assert ("scheduler" ∉ done) as Hnot
        by (intros Hin; destruct (Hd _ Hin) as [_ Hnone]; congruence).
      rewrite (order_starts_with_scheduler _ _ Hsplit Hnot) in Hu.
      assert (forall x, r' !! x = r !! x) as Hsame
        by (intros x; apply Hu, not_elem_of_nil).
      unfold active. rewrite Hsame. apply Hdeps; [|exact Hk].
      exists s. now rewrite <- Hsame.
Qed.

Lemma run_scheduler_dependencies history (r : registry) :
  scheduler_dependencies r -> scheduler_dependencies (run history r).1.
Proof.
  revert r. induction history as [|[W req] history IH]; intros r Hdeps;
    [exact Hdeps|].
  rewrite run_cons. simpl. apply IH, serve_scheduler_dependencies, Hdeps.
Qed.

(** X16: in every table the service can be in, a memory slot that reads
    active has the storage slot active, and a scheduler slot that reads
    active has llm, memory, storage and tool active: cleanup clears the
    scheduler before any of them, and memory before storage. *)
Theorem active_together (r : registry) :
  reachable r ->
  (get_status r !! "memory" = Some "active" ->
   get_status r !! "storage" = Some "active") /\
  (get_status r !! "scheduler" = Some "active" ->
   forall k, k ∈ required_components -> get_status r !! k = Some "active").
Proof.
  intros Hreach. split.
  - pose proof (reachable_invariant _ Hreach) as [Hcore _ Hmem _].
    rewrite !get_status_lookup.
    destruct (Hcore "storage") as [[c|] Hs];
      [apply (bool_decide_unpack _); reflexivity | now rewrite Hs |].
    rewrite (Hmem Hs). discriminate.
  - destruct Hreach as [history <-]. intros Hsched k Hk.
    apply status_active.
    apply (run_scheduler_dependencies history active_components);
      [|now apply status_active | exact Hk].
    intros [s Hs]. discriminate Hs.
Qed.

Lemma active_together_witness :
  reachable (run Samples.boot active_components).1 /\
  get_status (run Samples.boot active_components).1 !! "memory" = Some "active" /\
  get_status (run Samples.boot active_components).1 !! "storage" = Some "active".
Proof.
  assert (reachable (run Samples.boot active_components).1) as Hreach
    by now exists Samples.boot.
  split; [exact Hreach|]. split; [reflexivity|].
  exact (proj1 (active_together _ Hreach) eq_refl).
Defined.

(** X17: when the release of every slot of the order returns on the
    table as it stands (the scheduler's [stop()] returns, and each of
    tool, memory, storage and llm is inactive, has no [cleanup] or has one
    that returns), cleanup answers success and leaves [None] in all five
    slots. *)
Theorem cleanup_succeeds (r : registry) :
  (forall k, k ∈ cleanup_order -> (release k r).2 = Return tt) ->
  (cleanup_components r).2 = Body (success "All components cleaned up") /\
  (forall k, k ∈ cleanup_order -> (cleanup_components r).1 !! k = Some None).
Proof.
  intros Hreturns.
  destruct (cleanup_components_spec r) as (done & rest & Hsplit & Hd & _ & Hr).
  destruct rest as [|failing rest].
  - rewrite app_nil_r in Hsplit. subst done.
    split; [exact Hr|]. intros k Hk. now apply Hd.
  - destruct Hr as (e & Hrel & _).
    rewrite Hreturns in Hrel; [discriminate|].
    rewrite Hsplit. apply elem_of_app. right. apply elem_of_cons. now left.
Qed.

Lemma cleanup_succeeds_witness :
  (cleanup_components Samples.running_all).2
  = Body (success "All components cleaned up") /\
  (cleanup_components Samples.running_all).1 !! "llm" = Some None.
Proof.
  assert (forall k, k ∈ cleanup_order ->
                    (release k Samples.running_all).2 = Return tt) as Hreturns.
  { intros k Hk. unfold cleanup_order in Hk.
    apply elem_of_cons in Hk as [->|Hk]; [reflexivity|].
    apply elem_of_cons in Hk as [->|Hk]; [reflexivity|].
    apply elem_of_cons in Hk as [->|Hk]; [reflexivity|].
    apply elem_of_cons in Hk as [->|Hk]; [reflexivity|].
    apply elem_of_cons in Hk as [->|Hk]; [reflexivity|].
    now apply elem_of_nil in Hk. }
  destruct (cleanup_succeeds Samples.running_all Hreturns) as [Hresp Hnone].
  split; [exact Hresp|]. apply Hnone, (bool_decide_unpack _). reflexivity.
Defined.
